(** * SaaS landing backend: accounts, contact intake and blog listing

    A shallow embedding of [main.py] (the FastAPI routes [register], [login],
    [create_contact] and [list_blog], with the helpers [hash_password] and
    [verify_password]) and of the parts of its environment the routes call:
    the document store of [database.py] and the [passlib] password context.

    Python text is modelled by Rocq's [string] (8-bit characters, so the
    development speaks about ASCII text); a Python [dict] by a finite map
    with string keys; a raised exception by the [Raise] result; the
    module-level [db] and the effects performed on it by explicit state. *)

From Stdlib Require Import String Ascii List NArith Lia.
From stdpp Require Import base option list strings gmap fin_maps.

Local Open Scope string_scope.
Local Open Scope N_scope.
Local Open Scope nat_scope.

(** * The model *)

(** ** Text helpers *)

Module Text.

(** [s[:n]] *)
Fixpoint str_take (n : nat) (s : string) : string :=
  match n, s with
  | S n', String c s' => String c (str_take n' s')
  | _, _ => EmptyString
  end.

(** [s[n:]] *)
Fixpoint str_drop (n : nat) (s : string) : string :=
  match n, s with
  | S n', String _ s' => str_drop n' s'
  | _, _ => s
  end.

Definition is_upper (c : ascii) : bool :=
  let n := nat_of_ascii c in (65 <=? n) && (n <=? 90).

Definition is_digit (c : ascii) : bool :=
  let n := nat_of_ascii c in (48 <=? n) && (n <=? 57).

Definition lower_char (c : ascii) : ascii :=
  if is_upper c then ascii_of_nat (nat_of_ascii c + 32) else c.

(** [s.lower()] on ASCII text. *)
Fixpoint lower (s : string) : string :=
  match s with
  | EmptyString => EmptyString
  | String c s' => String (lower_char c) (lower s')
  end.

(** Some character of [s] is an upper-case letter. *)
Fixpoint has_upper (s : string) : bool :=
  match s with
  | EmptyString => false
  | String c s' => is_upper c || has_upper s'
  end.

End Text.
Import Text.

(** ** Python values, documents and exceptions *)

(** The values a stored document holds in this program: [None], booleans,
    text, a store identity ([bson.ObjectId]) and a list of text (the tags). *)
Inductive Value : Type :=
| VNone
| VBool (b : bool)
| VStr (s : string)
| VObjectId (oid : N)
| VList (l : list string).

#[global] Instance Value_eq_dec : EqDecision Value.
Proof. solve_decision. Defined.

(** A Python [dict] with text keys. *)
Abbreviation Doc := (gmap string Value).

(** [n] written with [k] digits in the base and digits of [alphabet], most
    significant digit first. *)
Fixpoint render_fixed (alphabet : string) (k : nat) (n : N) : string :=
  match k with
  | O => ""
  | S k' =>
      let base := N.of_nat (String.length alphabet) in
      render_fixed alphabet k' (n / base)%N
        +:+ String (nth (N.to_nat (n mod base)%N) (list_ascii_of_string alphabet) "0"%char) ""
  end.

(** [str(ObjectId)]: 24 hexadecimal digits. *)
Definition oid_str (oid : N) : string := render_fixed "0123456789abcdef" 24 oid.

Definition py_repr_str (s : string) : string := "'" +:+ s +:+ "'".

(** [str(v)] (text inside a list is shown in single quotes, unescaped). *)
Definition py_str (v : Value) : string :=
  match v with
  | VNone => "None"
  | VBool true => "True"
  | VBool false => "False"
  | VStr s => s
  | VObjectId oid => oid_str oid
  | VList l => "[" +:+ String.concat ", " (map py_repr_str l) +:+ "]"
  end.

Inductive Exn : Type :=
| HTTPException (status_code : nat) (detail : string)
| ValueError (msg : string)
| ValidationError (model : string)
| TypeError (msg : string).

Inductive Result (A : Type) : Type :=
| Ok (a : A)
| Raise (e : Exn).
Arguments Ok {A} a.
Arguments Raise {A} e.

(** The error kinds of the specification, as the routes raise them. *)
Definition StorageUnavailable : Exn := HTTPException 500 "Database not configured".
Definition DuplicateEmail : Exn := HTTPException 400 "Email already registered".
Definition InvalidCredentials : Exn := HTTPException 400 "Invalid email or password".

(** ** The document store *)

(** A database: named collections of documents in insertion order, and the
    next identity the store hands out. *)
Record Database : Type := mkDatabase {
  collections : gmap string (list Doc);
  next_oid : N
}.

(** [db[name]]: a collection never written to is empty. *)
Definition collection (d : Database) (name : string) : list Doc :=
  default [] (collections d !! name).

(** A filter document matches when each of its fields is in the document
    with an equal value; the empty filter matches everything. *)
Definition doc_matches (flt d : Doc) : bool :=
  bool_decide (map_Forall (fun k v => d !! k = Some v) flt).

(** [db[name].find(flt)] *)
Definition find (d : Database) (name : string) (flt : Doc) : list Doc :=
  List.filter (doc_matches flt) (collection d name).

(** [db[name].find_one(flt)]: the first match, or [None]. *)
Definition find_one (d : Database) (name : string) (flt : Doc) : option Doc :=
  head (find d name flt).

(** [db[name].insert_one(doc)]: the store assigns the identity [_id]. *)
Definition insert_one (d : Database) (name : string) (doc : Doc) : Database * N :=
  let oid := next_oid d in
  ({| collections := <[name := (collection d name ++ [<["_id" := VObjectId oid]> doc])%list]> (collections d);
      next_oid := N.succ oid |}, oid).

(** Truth value of [find_one]'s result in [if existing:] and [if not user:]:
    [None] and the empty dict are false. *)
Definition truthy_doc (o : option Doc) : bool :=
  match o with
  | None => false
  | Some d => bool_decide (d <> ∅)
  end.

(** ** Effects: the module-level [db] and a log of what was done *)

Inductive Event : Type :=
| EvFindOne (name : string)
| EvFind (name : string)
| EvInsert (name : string)
| EvHash
| EvVerify.

(** The state a request runs in: [db] ([None] when the store is not
    initialized) and the reads, writes and hasher calls performed so far. *)
Record World : Type := mkWorld {
  db : option Database;
  trace : list Event
}.

Definition M (A : Type) : Type := World -> Result A * World.

Definition ret {A} (a : A) : M A := fun w => (Ok a, w).
Definition raise {A} (e : Exn) : M A := fun w => (Raise e, w).
Definition bind {A B} (m : M A) (k : A -> M B) : M B :=
  fun w => match m w with
           | (Ok a, w') => k a w'
           | (Raise e, w') => (Raise e, w')
           end.
Definition lift {A} (r : Result A) : M A := fun w => (r, w).
Definition get_db : M (option Database) := fun w => (Ok (db w), w).
Definition log (e : Event) : M unit :=
  fun w => (Ok tt, {| db := db w; trace := (trace w ++ [e])%list |}).
Definition put_db (d : Database) : M unit :=
  fun w => (Ok tt, {| db := Some d; trace := trace w |}).

Notation "'let!' x ':=' m 'in' k" := (bind m (fun x => k))
  (at level 10, x name, m at level 100, k at level 200).
Notation "m ';;' k" := (bind m (fun _ => k))
  (at level 100, k at level 200, right associativity).

Fixpoint for_each {A} (l : list A) (body : A -> M unit) : M unit :=
  match l with
  | [] => ret tt
  | x :: l' => body x ;; for_each l' body
  end.

(** Modelled from the spec: [create_document] of database.py, which is not
    among the sources. It inserts [doc] into the collection and returns the
    generated identity as text; it fails with [StorageUnavailable] when the
    store is not initialized. *)
Definition create_document (name : string) (doc : Doc) : M string :=
  let! o := get_db in
  match o with
  | None => raise StorageUnavailable
  | Some d =>
      log (EvInsert name) ;;
      let (d', oid) := insert_one d name doc in
      put_db d' ;;
      ret (oid_str oid)
  end.

(** Modelled from the spec: [get_documents] of database.py, which is not
    among the sources. It returns up to [limit] documents matching the
    filter, in the store's order; it fails with [StorageUnavailable] when
    the store is not initialized. *)
Definition get_documents (name : string) (flt : Doc) (limit : nat) : M (list Doc) :=
  let! o := get_db in
  match o with
  | None => raise StorageUnavailable
  | Some d => log (EvFind name) ;; ret (take limit (find d name flt))
  end.

(** [db[name].find_one(flt)] on the module-level [db]. *)
Definition db_find_one (name : string) (flt : Doc) : M (option Doc) :=
  let! o := get_db in
  match o with
  | None => raise (TypeError "'NoneType' object is not subscriptable")
  | Some d => log (EvFindOne name) ;; ret (find_one d name flt)
  end.

(** [if db is None: raise HTTPException(status_code=500, ...)] *)
Definition require_db : M unit :=
  let! o := get_db in
  match o with
  | None => raise (HTTPException 500 "Database not configured")
  | Some _ => ret tt
  end.

(** ** Request and response models *)

Definition dict (l : list (string * Value)) : Doc := list_to_map l.

Module RegisterRequest.
Record t : Type := mk { name : string; email : string; password : string }.
(** [password: str = Field(min_length=6)], checked before the route runs. *)
Definition valid (p : t) : Prop := 6 <= String.length (password p).
End RegisterRequest.

Module LoginRequest.
Record t : Type := mk { email : string; password : string }.
End LoginRequest.

Module AuthResponse.
Record t : Type := mk { id : string; name : string; email : string }.
End AuthResponse.

Module ContactRequest.
Record t : Type := mk { name : string; email : string; message : string }.
(** [message: str = Field(min_length=5)], checked before the route runs. *)
Definition valid (p : t) : Prop := 5 <= String.length (message p).
Definition model_dump (p : t) : Doc :=
  dict [("name", VStr (name p)); ("email", VStr (email p)); ("message", VStr (message p))].
End ContactRequest.

Module BlogItem.
Record t : Type := mk {
  title : string;
  slug : string;
  excerpt : option string;
  content : string;
  author : option string;
  tags : option (list string)
}.
End BlogItem.

(** Field validation of the response models: a [str] field takes text only,
    an [Optional] field also takes [None]. (The address format that
    [EmailStr] checks is not modelled.) *)
Definition as_str (model : string) (v : Value) : Result string :=
  match v with
  | VStr s => Ok s
  | _ => Raise (ValidationError model)
  end.

Definition as_opt_str (model : string) (v : Value) : Result (option string) :=
  match v with
  | VStr s => Ok (Some s)
  | VNone => Ok None
  | _ => Raise (ValidationError model)
  end.

Definition as_opt_list (model : string) (v : Value) : Result (option (list string)) :=
  match v with
  | VList l => Ok (Some l)
  | VNone => Ok None
  | _ => Raise (ValidationError model)
  end.

(** [d.get(k)] and [d.get(k, dflt)] *)
Definition get (d : Doc) (k : string) : Value := default VNone (d !! k).
Definition get_or (d : Doc) (k : string) (dflt : Value) : Value := default dflt (d !! k).

Definition rbind {A B} (r : Result A) (k : A -> Result B) : Result B :=
  match r with
  | Ok a => k a
  | Raise e => Raise e
  end.

(** ** Contact and blog routes *)

(** [create_contact] (main.py, POST /contact) *)
Definition create_contact (payload : ContactRequest.t) : M Doc :=
  require_db ;;
  let! contact_id := create_document "contactmessage" (ContactRequest.model_dump payload) in
  ret (dict [("status", VStr "ok"); ("id", VStr contact_id)]).

(** The three demo posts [list_blog] seeds an empty collection with. *)
Definition demos : list Doc :=
  [ dict [ ("title", VStr "Announcing Cardify: The Modern Fintech Toolkit");
           ("slug", VStr "announcing-cardify");
           ("excerpt", VStr "We built a developer-first toolkit to help you launch card products faster.");
           ("content", VStr "Cardify helps teams design, test, and launch card experiences with built-in compliance.");
           ("author", VStr "Team Cardify");
           ("tags", VList ["announcement"; "fintech"]) ];
    dict [ ("title", VStr "Designing with Glassmorphism in Real Products");
           ("slug", VStr "glassmorphism-design");
           ("excerpt", VStr "Practical tips for using glassmorphism without sacrificing accessibility.");
           ("content", VStr "We cover contrast, motion, and depth to make glassmorphic UIs usable.");
           ("author", VStr "Maya Lee");
           ("tags", VList ["design"; "ux"]) ];
    dict [ ("title", VStr "From Prototype to Production: Our Infrastructure Stack");
           ("slug", VStr "infra-stack");
           ("excerpt", VStr "How we ship fast while staying compliant.");
           ("content", VStr "A look at our APIs, data pipelines, and monitoring choices.");
           ("author", VStr "Dev Team");
           ("tags", VList ["engineering"]) ] ].

(** [BlogItem(title=p.get("title", "Untitled"), slug=p.get("slug",
    str(p.get("_id", "post"))), excerpt=p.get("excerpt"),
    content=p.get("content", ""), author=p.get("author"), tags=p.get("tags"))] *)
Definition normalize (p : Doc) : Result BlogItem.t :=
  rbind (as_str "BlogItem" (get_or p "title" (VStr "Untitled"))) (fun title =>
  rbind (as_str "BlogItem" (get_or p "slug" (VStr (py_str (get_or p "_id" (VStr "post")))))) (fun slug =>
  rbind (as_opt_str "BlogItem" (get p "excerpt")) (fun excerpt =>
  rbind (as_str "BlogItem" (get_or p "content" (VStr ""))) (fun content =>
  rbind (as_opt_str "BlogItem" (get p "author")) (fun author =>
  rbind (as_opt_list "BlogItem" (get p "tags")) (fun tags =>
  Ok (BlogItem.mk title slug excerpt content author tags))))))).

(** The loop [for p in posts: normalized.append(BlogItem(...))]. *)
Fixpoint normalize_all (posts : list Doc) : Result (list BlogItem.t) :=
  match posts with
  | [] => Ok []
  | p :: ps =>
      rbind (normalize p) (fun b =>
      rbind (normalize_all ps) (fun bs => Ok (b :: bs)))
  end.

(** [list_blog] (main.py, GET /blog) *)
Definition list_blog : M (list BlogItem.t) :=
  require_db ;;
  let! posts := get_documents "blogpost" ∅ 50 in
  let! posts :=
    match posts with
    | [] =>
        for_each demos (fun d => create_document "blogpost" d ;; ret tt) ;;
        get_documents "blogpost" ∅ 50
    | _ => ret posts
    end in
  lift (normalize_all posts).

(** ** The password context and the account routes *)

Definition bcrypt64 : string :=
  "./ABCDEFGHIJKLMNOPQRSTUVWXYZabcdefghijklmnopqrstuvwxyz0123456789".

(** passlib's limit on the size of a secret. *)
Definition MAX_PASSWORD_SIZE : nat := 4096.

(** The secret contains the NUL character, which bcrypt does not take. *)
Fixpoint has_nul (s : string) : bool :=
  match s with
  | EmptyString => false
  | String c s' => Ascii.eqb c zero || has_nul s'
  end.

(** The secrets the password context works on: at most
    [MAX_PASSWORD_SIZE] characters, none of them NUL. *)
Definition secret_ok (secret : string) : bool :=
  (String.length secret <=? MAX_PASSWORD_SIZE) && negb (has_nul secret).

(** What the password context raises for a secret it does not work on:
    passlib's [PasswordSizeError] and bcrypt's [NullPasswordError], both a
    [ValueError]. *)
Definition check_secret (secret : string) : Result unit :=
  if MAX_PASSWORD_SIZE <? String.length secret
  then Raise (ValueError "password exceeds maximum allowed size")
  else if has_nul secret
  then Raise (ValueError "bcrypt does not allow NULL bytes in password")
  else Ok tt.

(** The configuration text of a fresh hash: identifier [2b], cost 12 and the
    salt in 22 characters. *)
Definition bcrypt_config (salt : N) : string :=
  "$2b$12$" +:+ render_fixed bcrypt64 22 salt.

Section Service.

(** [pwd_context = CryptContext(schemes=["bcrypt"], deprecated="auto")].
    passlib and bcrypt are libraries outside the repository. Their
    documented behaviour is modelled around one unknown, the bcrypt
    primitive itself: [bcrypt_raw config key] is the 184-bit digest for
    the configuration text (identifier, cost and the 22 salt characters,
    the first 29 characters of a hash) and for the key, the first 72
    bytes of the secret. *)
Variable bcrypt_raw : string -> string -> N.

(** The 31 checksum characters of a bcrypt hash. bcrypt reads at most 72
    bytes of the secret. *)
Definition bcrypt_checksum (config secret : string) : string :=
  render_fixed bcrypt64 31 (bcrypt_raw config (str_take 72 secret)).

(** The text of a fresh hash of [secret] under [salt]. *)
Definition bcrypt_hash (salt : N) (secret : string) : string :=
  let config := bcrypt_config salt in
  config +:+ bcrypt_checksum config secret.

(** [pwd_context.hash(secret)] with the salt drawn for the call: raises
    [ValueError] for a secret over the size limit or with a NUL in it. *)
Definition pwd_context_hash (salt : N) (secret : string) : Result string :=
  rbind (check_secret secret) (fun _ => Ok (bcrypt_hash salt secret)).

(** Whether the text has the shape of a bcrypt hash: an identifier
    [$2a$], [$2b$] or [$2y$], a two-digit cost, [$], and 53 more
    characters (salt and checksum). *)
Definition identify (hash : string) : bool :=
  (String.length hash =? 60)
  && match hash with
     | String "$" (String "2" (String v (String "$" (String c1 (String c2 (String "$" _)))))) =>
         (Ascii.eqb v "a" || Ascii.eqb v "b" || Ascii.eqb v "y")
         && is_digit c1 && is_digit c2
     | _ => false
     end.

(** [pwd_context.verify(secret, hash)]: [False] when the hash is [None];
    raises [TypeError] when it is not text and [ValueError] when the text
    is empty or is not recognised as a hash of one of the context's
    schemes (passlib's [UnknownHashError]); for a recognised hash it
    raises [ValueError] for a secret over the size limit or with a NUL in
    it, and otherwise recomputes the checksum under the hash's own
    configuration and compares. *)
Definition pwd_context_verify (secret : string) (hash : Value) : Result bool :=
  match hash with
  | VNone => Ok false
  | VStr h =>
      if identify h then
        rbind (check_secret secret) (fun _ =>
        Ok (String.eqb (bcrypt_checksum (str_take 29 h) secret) (str_drop 29 h)))
      else Raise (ValueError (if String.eqb h "" then "no hash specified"
                              else "hash could not be identified"))
  | _ => Raise (TypeError "hash must be unicode or bytes")
  end.

(** [hash_password] (main.py) *)
Definition hash_password (salt : N) (password : string) : M string :=
  log EvHash ;; lift (pwd_context_hash salt password).

(** [verify_password] (main.py) *)
Definition verify_password (password : string) (hashed : Value) : M bool :=
  log EvVerify ;; lift (pwd_context_verify password hashed).

(** [register] (main.py, POST /auth/register); [salt] is the salt the
    hasher draws during the call. *)
Definition register (salt : N) (payload : RegisterRequest.t) : M AuthResponse.t :=
  require_db ;;
  let! existing :=
    db_find_one "user" (dict [("email", VStr (lower (RegisterRequest.email payload)))]) in
  if truthy_doc existing then raise (HTTPException 400 "Email already registered")
  else
    let! password_hash := hash_password salt (RegisterRequest.password payload) in
    let name := RegisterRequest.name payload in
    let email := lower (RegisterRequest.email payload) in
    let user_doc :=
      dict [ ("name", VStr name);
             ("email", VStr email);
             ("password_hash", VStr password_hash);
             ("is_active", VBool true) ] in
    let! new_id := create_document "user" user_doc in
    ret (AuthResponse.mk new_id name email).

(** [login] (main.py, POST /auth/login) *)
Definition login (payload : LoginRequest.t) : M AuthResponse.t :=
  require_db ;;
  let! user :=
    db_find_one "user" (dict [("email", VStr (lower (LoginRequest.email payload)))]) in
  match user with
  | Some u =>
      if truthy_doc user then
        let! ok := verify_password (LoginRequest.password payload)
                     (get_or u "password_hash" (VStr "")) in
        if ok then
          lift (rbind (as_str "AuthResponse" (get u "name")) (fun name =>
                rbind (as_str "AuthResponse" (get u "email")) (fun email =>
                Ok (AuthResponse.mk (py_str (get u "_id")) name email))))
        else raise (HTTPException 400 "Invalid email or password")
      else raise (HTTPException 400 "Invalid email or password")
  | None => raise (HTTPException 400 "Invalid email or password")
  end.

(** The document [register] builds once the password is hashed, and the
    one the store keeps for it. *)
Definition new_user_doc (salt : N) (payload : RegisterRequest.t) : Doc :=
  dict [ ("name", VStr (RegisterRequest.name payload));
         ("email", VStr (lower (RegisterRequest.email payload)));
         ("password_hash",
          VStr (bcrypt_hash salt (RegisterRequest.password payload)));
         ("is_active", VBool true) ].

Definition stored_user (salt : N) (payload : RegisterRequest.t) (d : Database) : Doc :=
  <["_id" := VObjectId (next_oid d)]> (new_user_doc salt payload).

Definition after_register (salt : N) (payload : RegisterRequest.t) (d : Database) : Database :=
  fst (insert_one d "user" (new_user_doc salt payload)).

End Service.

(** ** Notions the statements below use *)

Definition email_filter (e : string) : Doc := dict [("email", VStr e)].

(** What [login] does once the account document [u] is found: the outcome
    of the hash verification decides. *)
Definition login_outcome (u : Doc) (verified : Result bool) : Result AuthResponse.t :=
  match verified with
  | Ok true =>
      rbind (as_str "AuthResponse" (get u "name")) (fun name =>
      rbind (as_str "AuthResponse" (get u "email")) (fun email =>
      Ok (AuthResponse.mk (py_str (get u "_id")) name email)))
  | Ok false => Raise InvalidCredentials
  | Raise e => Raise e
  end.

(** The store after the loop [for d in demos: create_document(name, d)]. *)
Definition insert_all (name : string) (docs : list Doc) (d : Database) : Database :=
  fold_left (fun acc doc => fst (insert_one acc name doc)) docs d.

(** The documents the store keeps for [docs], identities counted up from [oid]. *)
Fixpoint stamp (oid : N) (docs : list Doc) : list Doc :=
  match docs with
  | [] => []
  | doc :: rest => <["_id" := VObjectId oid]> doc :: stamp (N.succ oid) rest
  end.

(** What [list_blog] returns for the seeded posts. *)
Definition demo_items : list BlogItem.t :=
  [ BlogItem.mk "Announcing Cardify: The Modern Fintech Toolkit" "announcing-cardify"
      (Some "We built a developer-first toolkit to help you launch card products faster.")
      "Cardify helps teams design, test, and launch card experiences with built-in compliance."
      (Some "Team Cardify") (Some ["announcement"; "fintech"]);
    BlogItem.mk "Designing with Glassmorphism in Real Products" "glassmorphism-design"
      (Some "Practical tips for using glassmorphism without sacrificing accessibility.")
      "We cover contrast, motion, and depth to make glassmorphic UIs usable."
      (Some "Maya Lee") (Some ["design"; "ux"]);
    BlogItem.mk "From Prototype to Production: Our Infrastructure Stack" "infra-stack"
      (Some "How we ship fast while staying compliant.")
      "A look at our APIs, data pipelines, and monitoring choices."
      (Some "Dev Team") (Some ["engineering"]) ].

(** The defaults [list_blog] substitutes in the entry [item] it returns for
    the stored document [p]. *)
Definition normalized (p : Doc) (item : BlogItem.t) : Prop :=
  (p !! "title" = None -> BlogItem.title item = "Untitled")
  /\ (p !! "slug" = None ->
      forall i : Value, p !! "_id" = Some i -> BlogItem.slug item = py_str i)
  /\ (p !! "content" = None -> BlogItem.content item = "")
  /\ (p !! "excerpt" = None -> BlogItem.excerpt item = None)
  /\ (p !! "author" = None -> BlogItem.author item = None)
  /\ (p !! "tags" = None -> BlogItem.tags item = None).

(** ** Concrete inputs, to run the routes on *)

(** A stand-in for the bcrypt primitive, to run the model on concrete
    inputs: it adds up the character codes of its two arguments. *)
Fixpoint code_sum (s : string) : N :=
  match s with
  | EmptyString => 0%N
  | String c s' => (N_of_ascii c + code_sum s')%N
  end.

Definition demo_raw (config key : string) : N := (code_sum config * 1000 + code_sum key)%N.

Definition empty_db : Database := {| collections := ∅; next_oid := 0 |}.
Definition world0 : World := {| db := Some empty_db; trace := [] |}.

Definition ada : RegisterRequest.t := RegisterRequest.mk "Ada" "Ada@Example.com" "s3cret!".

Definition ada_login : LoginRequest.t := LoginRequest.mk "Ada@Example.com" "s3cret!".
Definition ada_wrong : LoginRequest.t := LoginRequest.mk "Ada@Example.com" "s3cret?".
Definition ada_again : RegisterRequest.t := RegisterRequest.mk "Ada L." "ADA@EXAMPLE.COM" "another1".

Definition ada_response : AuthResponse.t :=
  AuthResponse.mk "000000000000000000000000" "Ada" "ada@example.com".

(** The state after Ada registered on the empty store. *)
Definition world_ada : World := snd (register demo_raw 7 ada world0).
Definition db_ada : Database := after_register demo_raw 7 ada empty_db.

Definition world_down : World := {| db := None; trace := [] |}.
Definition hello : ContactRequest.t := ContactRequest.mk "Bob" "bob@example.com" "Hello there".

(** A store whose only post has nothing but its identity. *)
Definition db_bare : Database :=
  {| collections := {[ "blogpost" := [dict [("_id", VObjectId 10)]] ]}; next_oid := 11 |}.

Definition world_bare : World := {| db := Some db_bare; trace := [] |}.
Definition bare_item : BlogItem.t :=
  BlogItem.mk "Untitled" "00000000000000000000000a" None "" None None.

(** A [user] collection holding one account document that was written
    without a [password_hash] field. *)
Definition db_legacy : Database :=
  {| collections :=
       {[ "user" := [dict [ ("_id", VObjectId 1); ("name", VStr "Eve");
                            ("email", VStr "eve@example.com"); ("is_active", VBool true) ]] ]};
     next_oid := 2 |}.

Definition world_legacy : World := {| db := Some db_legacy; trace := [] |}.
Definition eve_login : LoginRequest.t := LoginRequest.mk "eve@example.com" "s3cret!".




(** ** The diagnostic route *)

(** What [db.list_collection_names()] gives: the names, or an exception
    with its message. *)
Inductive Listing : Type :=
| Listed (names : list string)
| ListingFailed (message : string).

(** Truth value of [os.getenv(...)]: [None] and the empty text are false. *)
Definition str_truthy (o : option string) : bool :=
  match o with
  | Some (String _ _) => true
  | _ => false
  end.

Section Diagnostics.

(** What the route reads from its environment: [os.getenv("DATABASE_URL")],
    and of the driver [db.name] and [db.list_collection_names()]. *)
Variable getenv_DATABASE_URL : option string.
Variable db_name : Database -> string.
Variable list_collection_names : Database -> Listing.

(** [test_database] (main.py, GET /test). The route fills a dict in place;
    the inner [try] catches a failing listing. The statements the outer
    [try] guards besides (reading the environment and [db.name], which a
    database handle always has) do not raise. *)
Definition test_database : M Doc :=
  let! o := get_db in
  let response :=
    dict [ ("backend", VStr "✅ Running");
           ("database", VStr "❌ Not Available");
           ("database_url", VNone);
           ("database_name", VNone);
           ("connection_status", VStr "Not Connected");
           ("collections", VList []) ] in
  match o with
  | Some d =>
      let response := <["database" := VStr "✅ Available"]> response in
      let response :=
        <["database_url" :=
            VStr (if str_truthy getenv_DATABASE_URL then "✅ Set" else "❌ Not Set")]> response in
      let response := <["database_name" := VStr (db_name d)]> response in
      let response := <["connection_status" := VStr "Connected"]> response in
      match list_collection_names d with
      | Listed collections =>
          let response := <["collections" := VList (take 10 collections)]> response in
          ret (<["database" := VStr "✅ Connected & Working"]> response)
      | ListingFailed message =>
          ret (<["database" :=
                   VStr ("⚠️ Connected but Error: " +:+ str_take 50 message)]> response)
      end
  | None => ret (<["database" := VStr "⚠️ Available but not initialized"]> response)
  end.

End Diagnostics.

(** ** Invariants of the [user] collection *)

(** No two account documents carry the same address. *)
Definition emails_unique (d : Database) : Prop :=
  forall e : string, length (find d "user" (email_filter e)) <= 1.

(** Every address kept in an account document is in lower case. *)
Definition emails_lower (d : Database) : Prop :=
  Forall (fun u : Doc => forall e : string, u !! "email" = Some (VStr e) -> has_upper e = false)
         (collection d "user").

(** The fields [list_blog] hands on as they are stored. *)
Definition passes_fields (p : Doc) (item : BlogItem.t) : Prop :=
  (forall v : Value, p !! "title" = Some v -> v = VStr (BlogItem.title item))
  /\ (forall v : Value, p !! "slug" = Some v -> v = VStr (BlogItem.slug item))
  /\ (forall v : Value, p !! "content" = Some v -> v = VStr (BlogItem.content item))
  /\ (forall v : Value, p !! "excerpt" = Some v ->
        match BlogItem.excerpt item with Some s => v = VStr s | None => v = VNone end)
  /\ (forall v : Value, p !! "author" = Some v ->
        match BlogItem.author item with Some s => v = VStr s | None => v = VNone end)
  /\ (forall v : Value, p !! "tags" = Some v ->
        match BlogItem.tags item with Some l => v = VList l | None => v = VNone end).

(** ** Further inputs *)

Definition bob : RegisterRequest.t := RegisterRequest.mk "Bob" "Bob@Example.com" "hunter22".
Definition ada_shouting : LoginRequest.t := LoginRequest.mk "ADA@EXAMPLE.COM" "s3cret!".

(** A store with 51 posts that have nothing but an identity. *)
Definition db_many : Database :=
  {| collections := {[ "blogpost" := replicate 51 (dict [("_id", VObjectId 10)]) ]};
     next_oid := 11 |}.
Definition world_many : World := {| db := Some db_many; trace := [] |}.

(** A store whose only post has a truth value for a title. *)
Definition db_odd : Database :=
  {| collections := {[ "blogpost" := [dict [("_id", VObjectId 3); ("title", VBool true)]] ]};
     next_oid := 4 |}.
Definition world_odd : World := {| db := Some db_odd; trace := [] |}.

(** A driver that lists twelve collections, and one whose listing fails. *)
Definition twelve_names : list string :=
  ["a"; "b"; "c"; "d"; "e"; "f"; "g"; "h"; "i"; "j"; "k"; "l"].
Definition listing_ok (_ : Database) : Listing := Listed twelve_names.
Definition listing_down (_ : Database) : Listing :=
  ListingFailed "localhost:27017: [Errno 111] Connection refused, Timeout: 30s, Topology Description".
Definition name_of_db (_ : Database) : string := "landing".

(** A [user] collection whose one account has a hash of "s3cret!" and no
    [name] field. *)
Definition db_nameless : Database :=
  {| collections :=
       {[ "user" := [dict [ ("_id", VObjectId 1); ("email", VStr "eve@example.com");
                            ("password_hash", VStr (bcrypt_hash demo_raw 7 "s3cret!")) ]] ]};
     next_oid := 2 |}.
Definition world_nameless : World := {| db := Some db_nameless; trace := [] |}.

(** A password of eight characters, the fourth of them NUL. *)
Definition nul_password : string := "s3c" +:+ String zero "ret!".
Definition ada_nul : RegisterRequest.t :=
  RegisterRequest.mk "Ada" "Ada@Example.com" nul_password.


(** ** Counting checksums *)



(** * Properties *)

(** ** Text *)

Module TextFacts.

Lemma length_append (a b : string) :
  String.length (a +:+ b) = String.length a + String.length b.
Proof. induction a as [|c a IH]; simpl; [reflexivity | now rewrite IH]. Qed.

Lemma str_take_app (a b : string) : str_take (String.length a) (a +:+ b) = a.
Proof. induction a as [|c a IH]; simpl; [now destruct b | now rewrite IH]. Qed.

Lemma str_drop_app (a b : string) : str_drop (String.length a) (a +:+ b) = b.
Proof. induction a as [|c a IH]; simpl; [reflexivity | exact IH]. Qed.

Lemma str_take_app_ge (n : nat) (a b : string) :
  String.length a = n -> str_take n (a +:+ b) = a.
Proof. intros <-. apply str_take_app. Qed.

Lemma str_drop_app_ge (n : nat) (a b : string) :
  String.length a = n -> str_drop n (a +:+ b) = b.
Proof. intros <-. apply str_drop_app. Qed.

Lemma is_upper_bounds (c : ascii) :
  is_upper c = true -> 65 <= nat_of_ascii c <= 90.
Proof.
  unfold is_upper. intros H. apply andb_true_iff in H as [H1 H2].
  apply Nat.leb_le in H1, H2. lia.
Qed.

Lemma nat_of_lower_upper (c : ascii) :
  is_upper c = true -> nat_of_ascii (lower_char c) = nat_of_ascii c + 32.
Proof.
  intros H. unfold lower_char. rewrite H.
  apply is_upper_bounds in H. apply nat_ascii_embedding. lia.
Qed.

Lemma lower_char_upper (c : ascii) : is_upper c = true -> lower_char c <> c.
Proof.
  intros H E. apply nat_of_lower_upper in H. rewrite E in H. lia.
Qed.

Lemma lower_has_upper (s : string) : has_upper s = true -> lower s <> s.
Proof.
  induction s as [|c s IH]; simpl; [discriminate|].
  intros H E. injection E as Ec Es.
  apply orb_true_iff in H as [H|H].
  - now apply (lower_char_upper c).
  - now apply IH.
Qed.

End TextFacts.
Import TextFacts.

Lemma length_render_fixed (alphabet : string) (k : nat) (n : N) :
  String.length (render_fixed alphabet k n) = k.
Proof.
  revert n; induction k as [|k IH]; intros n; simpl; [reflexivity|].
  rewrite TextFacts.length_append, IH. simpl. lia.
Qed.

(** ** The store *)

Lemma doc_matches_email (e : string) (d : Doc) :
  doc_matches (email_filter e) d = true <-> d !! "email" = Some (VStr e).
Proof.
  unfold doc_matches, email_filter, dict. simpl.
  rewrite bool_decide_eq_true, insert_empty, map_Forall_singleton. reflexivity.
Qed.

Lemma doc_matches_empty (d : Doc) : doc_matches ∅ d = true.
Proof. unfold doc_matches. apply bool_decide_eq_true, map_Forall_empty. Qed.

Lemma find_all (d : Database) (name : string) : find d name ∅ = collection d name.
Proof.
  unfold find. induction (collection d name) as [|x l IH]; simpl; [reflexivity|].
  now rewrite doc_matches_empty, IH.
Qed.

(** A document found under an e-mail filter is never the empty dict, so
    [if existing:] and [if not user:] only test for [None]. *)
Lemma find_one_truthy (d : Database) (name e : string) (u : Doc) :
  find_one d name (email_filter e) = Some u -> truthy_doc (Some u) = true.
Proof.
  unfold find_one, find. intros H.
  apply head_Some_elem_of, list_elem_of_In, filter_In in H as [_ H].
  apply doc_matches_email in H. simpl. apply bool_decide_eq_true.
  intros ->. rewrite lookup_empty in H. discriminate.
Qed.

Lemma collection_insert_one (d : Database) (name : string) (doc : Doc) :
  collection (fst (insert_one d name doc)) name
  = (collection d name ++ [<["_id" := VObjectId (next_oid d)]> doc])%list.
Proof. unfold insert_one, collection at 1. simpl. now rewrite lookup_insert_eq. Qed.

Lemma collection_insert_one_ne (d : Database) (name other : string) (doc : Doc) :
  name <> other ->
  collection (fst (insert_one d name doc)) other = collection d other.
Proof.
  intros Hne. unfold insert_one, collection at 1. simpl.
  now rewrite lookup_insert_ne.
Qed.

Lemma find_insert_one (d : Database) (name : string) (doc flt : Doc) :
  find (fst (insert_one d name doc)) name flt
  = (find d name flt
     ++ List.filter (doc_matches flt) [<["_id" := VObjectId (next_oid d)]> doc])%list.
Proof. unfold find. now rewrite collection_insert_one, List.filter_app. Qed.

Lemma find_one_None (d : Database) (name : string) (flt : Doc) :
  find_one d name flt = None -> find d name flt = [].
Proof. unfold find_one. now destruct (find d name flt). Qed.

(** The look-up [register] and [login] perform finds nothing exactly when no
    document of the [user] collection carries the address. *)
Lemma find_one_email_None (d : Database) (e : string) :
  find_one d "user" (email_filter e) = None
  <-> Forall (fun u : Doc => u !! "email" <> Some (VStr e)) (collection d "user").
Proof.
  unfold find_one, find. induction (collection d "user") as [|u l IH]; simpl.
  - split; [constructor | reflexivity].
  - destruct (doc_matches (email_filter e) u) eqn:Hm; simpl.
    + apply doc_matches_email in Hm. split; [discriminate|].
      intros H. inversion H; contradiction.
    + split.
      * intros H. constructor; [|now apply IH].
        intros Hu. apply doc_matches_email in Hu. congruence.
      * intros H. inversion H; subst. now apply IH.
Qed.

(** ** The password context *)

Lemma check_secret_ok (secret : string) :
  secret_ok secret = true -> check_secret secret = Ok tt.
Proof.
  unfold secret_ok, check_secret. intros H. apply andb_true_iff in H as [Hlen Hnul].
  apply Nat.leb_le in Hlen. apply negb_true_iff in Hnul.
  rewrite (proj2 (Nat.ltb_ge _ _) Hlen). now rewrite Hnul.
Qed.

Lemma check_secret_refused (secret : string) :
  secret_ok secret = false ->
  exists msg : string, check_secret secret = Raise (ValueError msg).
Proof.
  unfold secret_ok, check_secret. intros H.
  destruct (MAX_PASSWORD_SIZE <? String.length secret) eqn:Hlen; [eauto|].
  apply Nat.ltb_ge, Nat.leb_le in Hlen. rewrite Hlen in H. cbn [andb] in H.
  apply negb_false_iff in H. rewrite H. eauto.
Qed.

Section HasherFacts.

Variable bcrypt_raw : string -> string -> N.

Lemma length_bcrypt_config (salt : N) : String.length (bcrypt_config salt) = 29.
Proof.
  unfold bcrypt_config. rewrite TextFacts.length_append, length_render_fixed. reflexivity.
Qed.

Lemma length_bcrypt_checksum (config secret : string) :
  String.length (bcrypt_checksum bcrypt_raw config secret) = 31.
Proof. apply length_render_fixed. Qed.

Lemma bcrypt_hash_eq (salt : N) (secret : string) :
  bcrypt_hash bcrypt_raw salt secret
  = bcrypt_config salt +:+ bcrypt_checksum bcrypt_raw (bcrypt_config salt) secret.
Proof. reflexivity. Qed.

Lemma identify_shape (r c : string) :
  String.length r = 22 -> String.length c = 31 ->
  identify (("$2b$12$" +:+ r) +:+ c) = true.
Proof.
  intros Hr Hc. unfold identify.
  rewrite !TextFacts.length_append, Hr, Hc. reflexivity.
Qed.

Lemma identify_hash (salt : N) (secret : string) :
  identify (bcrypt_hash bcrypt_raw salt secret) = true.
Proof.
  unfold bcrypt_hash. apply identify_shape.
  - apply length_render_fixed.
  - apply length_bcrypt_checksum.
Qed.

Lemma pwd_context_hash_ok (salt : N) (secret : string) :
  secret_ok secret = true ->
  pwd_context_hash bcrypt_raw salt secret = Ok (bcrypt_hash bcrypt_raw salt secret).
Proof. intros H. unfold pwd_context_hash. now rewrite (check_secret_ok secret H). Qed.


Lemma pwd_context_hash_refused (salt : N) (secret : string) :
  secret_ok secret = false ->
  exists msg : string, pwd_context_hash bcrypt_raw salt secret = Raise (ValueError msg).
Proof.
  intros H. unfold pwd_context_hash.
  destruct (check_secret_refused secret H) as [msg ->]. now exists msg.
Qed.

(** Verifying against a fresh hash compares the checksums of the two
    secrets under the hash's configuration. *)
Lemma verify_hash_checksums (salt : N) (p q : string) :
  secret_ok p = true ->
  pwd_context_verify bcrypt_raw p (VStr (bcrypt_hash bcrypt_raw salt q))
  = Ok (String.eqb (bcrypt_checksum bcrypt_raw (bcrypt_config salt) p)
                   (bcrypt_checksum bcrypt_raw (bcrypt_config salt) q)).
Proof.
  intros Hp. unfold pwd_context_verify.
  rewrite identify_hash, (check_secret_ok p Hp), bcrypt_hash_eq. cbn [rbind].
  rewrite (TextFacts.str_take_app_ge 29), (TextFacts.str_drop_app_ge 29);
    auto using length_bcrypt_config.
Qed.

Lemma verify_hash_same (salt : N) (p : string) :
  secret_ok p = true ->
  pwd_context_verify bcrypt_raw p (VStr (bcrypt_hash bcrypt_raw salt p)) = Ok true.
Proof. intros Hp. rewrite (verify_hash_checksums _ _ _ Hp). now rewrite String.eqb_refl. Qed.


Lemma verify_unidentified (p h : string) :
  identify h = false ->
  exists msg : string, pwd_context_verify bcrypt_raw p (VStr h) = Raise (ValueError msg).
Proof. intros H. unfold pwd_context_verify. rewrite H. eauto. Qed.

End HasherFacts.

(** ** The account routes, run on a given state *)

(** Runs the monadic plumbing of a route, leaving the store queries, the
    hasher and the dicts folded. *)
Ltac run_route :=
  cbv beta iota zeta delta
    [bind ret raise lift get_db log put_db require_db db_find_one
     create_document get_documents for_each db trace].

Section RouteFacts.

Variable bcrypt_raw : string -> string -> N.

Lemma register_fresh (salt : N) (payload : RegisterRequest.t) (w : World) (d : Database) :
  db w = Some d ->
  find_one d "user" (email_filter (lower (RegisterRequest.email payload))) = None ->
  secret_ok (RegisterRequest.password payload) = true ->
  register bcrypt_raw salt payload w
  = (Ok (AuthResponse.mk (oid_str (next_oid d)) (RegisterRequest.name payload)
           (lower (RegisterRequest.email payload))),
     {| db := Some (after_register bcrypt_raw salt payload d);
        trace := (trace w ++ [EvFindOne "user"; EvHash; EvInsert "user"])%list |}).
Proof.
  destruct w as [o t]. cbn [db trace]. intros -> Hnone Hok.
  unfold register, hash_password. run_route.
  fold (email_filter (lower (RegisterRequest.email payload))). rewrite Hnone.
  rewrite (pwd_context_hash_ok bcrypt_raw salt _ Hok).
  cbv beta iota zeta delta [truthy_doc insert_one].
  rewrite <- !app_assoc. reflexivity.
Qed.

(** A password the hasher refuses ends [register] before anything is
    written. *)
Lemma register_refused (salt : N) (payload : RegisterRequest.t) (w : World) (d : Database) :
  db w = Some d ->
  find_one d "user" (email_filter (lower (RegisterRequest.email payload))) = None ->
  secret_ok (RegisterRequest.password payload) = false ->
  exists msg : string,
    register bcrypt_raw salt payload w
    = (Raise (ValueError msg),
       {| db := Some d; trace := (trace w ++ [EvFindOne "user"; EvHash])%list |}).
Proof.
  destruct w as [o t]. cbn [db trace]. intros -> Hnone Hbad.
  destruct (pwd_context_hash_refused bcrypt_raw salt _ Hbad) as [msg Hmsg].
  exists msg. unfold register, hash_password. run_route.
  fold (email_filter (lower (RegisterRequest.email payload))). rewrite Hnone, Hmsg.
  cbv beta iota zeta delta [truthy_doc].
  rewrite <- !app_assoc. reflexivity.
Qed.

Lemma register_taken (salt : N) (payload : RegisterRequest.t) (w : World) (d : Database) (u : Doc) :
  db w = Some d ->
  find_one d "user" (email_filter (lower (RegisterRequest.email payload))) = Some u ->
  register bcrypt_raw salt payload w
  = (Raise DuplicateEmail,
     {| db := Some d; trace := (trace w ++ [EvFindOne "user"])%list |}).
Proof.
  destruct w as [o t]. cbn [db trace]. intros -> Hsome.
  unfold register, hash_password. run_route.
  fold (email_filter (lower (RegisterRequest.email payload))). rewrite Hsome.
  now rewrite (find_one_truthy _ _ _ _ Hsome).
Qed.

Lemma login_unknown (payload : LoginRequest.t) (w : World) (d : Database) :
  db w = Some d ->
  find_one d "user" (email_filter (lower (LoginRequest.email payload))) = None ->
  login bcrypt_raw payload w
  = (Raise InvalidCredentials,
     {| db := Some d; trace := (trace w ++ [EvFindOne "user"])%list |}).
Proof.
  destruct w as [o t]. cbn [db trace]. intros -> Hnone.
  unfold login, verify_password. run_route.
  fold (email_filter (lower (LoginRequest.email payload))). now rewrite Hnone.
Qed.

Lemma login_known (payload : LoginRequest.t) (w : World) (d : Database) (u : Doc) :
  db w = Some d ->
  find_one d "user" (email_filter (lower (LoginRequest.email payload))) = Some u ->
  login bcrypt_raw payload w
  = (login_outcome u
       (pwd_context_verify bcrypt_raw (LoginRequest.password payload)
          (get_or u "password_hash" (VStr ""))),
     {| db := Some d; trace := (trace w ++ [EvFindOne "user"; EvVerify])%list |}).
Proof.
  destruct w as [o t]. cbn [db trace]. intros -> Hsome.
  unfold login, verify_password. run_route.
  fold (email_filter (lower (LoginRequest.email payload))). rewrite Hsome.
  rewrite (find_one_truthy _ _ _ _ Hsome).
  rewrite <- !app_assoc. cbn [app].
  destruct (pwd_context_verify _ _ _) as [[|]|e]; reflexivity.
Qed.

(** The account document of a fresh registration is the one later
    look-ups under the same normalized address find. *)
Lemma find_one_after_register (salt : N) (payload : RegisterRequest.t) (d : Database) :
  find_one d "user" (email_filter (lower (RegisterRequest.email payload))) = None ->
  find_one (after_register bcrypt_raw salt payload d) "user"
    (email_filter (lower (RegisterRequest.email payload)))
  = Some (stored_user bcrypt_raw salt payload d).
Proof.
  intros Hnone. unfold find_one, after_register.
  rewrite find_insert_one, (find_one_None _ _ _ Hnone). cbn [app List.filter].
  fold (stored_user bcrypt_raw salt payload d).
  replace (doc_matches _ (stored_user bcrypt_raw salt payload d)) with true; [reflexivity|].
  symmetry. apply doc_matches_email. reflexivity.
Qed.

Lemma stored_user_hash (salt : N) (payload : RegisterRequest.t) (d : Database) :
  get_or (stored_user bcrypt_raw salt payload d) "password_hash" (VStr "")
  = VStr (bcrypt_hash bcrypt_raw salt (RegisterRequest.password payload)).
Proof. reflexivity. Qed.

Lemma stored_user_fields (salt : N) (payload : RegisterRequest.t) (d : Database) :
  get (stored_user bcrypt_raw salt payload d) "name" = VStr (RegisterRequest.name payload)
  /\ get (stored_user bcrypt_raw salt payload d) "email" = VStr (lower (RegisterRequest.email payload))
  /\ get (stored_user bcrypt_raw salt payload d) "_id" = VObjectId (next_oid d).
Proof. repeat split; reflexivity. Qed.

Lemma register_uninitialized
    (salt : N) (payload : RegisterRequest.t) (w : World) :
  db w = None -> register bcrypt_raw salt payload w = (Raise StorageUnavailable, w).
Proof.
  destruct w as [o t]. cbn [db]. intros ->. unfold register. run_route. reflexivity.
Qed.

Lemma login_uninitialized
    (payload : LoginRequest.t) (w : World) :
  db w = None -> login bcrypt_raw payload w = (Raise StorageUnavailable, w).
Proof.
  destruct w as [o t]. cbn [db]. intros ->. unfold login. run_route. reflexivity.
Qed.

(** [login] never writes: whatever it returns, [db] is as before. *)
Lemma login_keeps_store
    (payload : LoginRequest.t) (w : World) :
  db (snd (login bcrypt_raw payload w)) = db w.
Proof.
  destruct (db w) as [d|] eqn:Hdb.
  - destruct (find_one d "user" (email_filter (lower (LoginRequest.email payload))))
      as [u|] eqn:Hf.
    + now rewrite (login_known payload w d u Hdb Hf).
    + now rewrite (login_unknown payload w d Hdb Hf).
  - now rewrite (login_uninitialized payload w Hdb).
Qed.

(** [register] writes only when it succeeds. *)
Lemma register_failure_keeps_store
    (salt : N) (payload : RegisterRequest.t)
    (w : World) (e : Exn) :
  fst (register bcrypt_raw salt payload w) = Raise e ->
  db (snd (register bcrypt_raw salt payload w)) = db w.
Proof.
  destruct (db w) as [d|] eqn:Hdb.
  - destruct (find_one d "user" (email_filter (lower (RegisterRequest.email payload))))
      as [u|] eqn:Hf.
    + now rewrite (register_taken salt payload w d u Hdb Hf).
    + destruct (secret_ok (RegisterRequest.password payload)) eqn:Hok.
      * rewrite (register_fresh salt payload w d Hdb Hf Hok). discriminate.
      * destruct (register_refused salt payload w d Hdb Hf Hok) as [msg ->].
        reflexivity.
  - now rewrite (register_uninitialized salt payload w Hdb).
Qed.

End RouteFacts.

Lemma create_document_run (name : string) (doc : Doc) (d : Database) (t : list Event) :
  create_document name doc {| db := Some d; trace := t |}
  = (Ok (oid_str (next_oid d)),
     {| db := Some (fst (insert_one d name doc)); trace := (t ++ [EvInsert name])%list |}).
Proof. reflexivity. Qed.

Lemma get_documents_run (name : string) (flt : Doc) (limit : nat) (d : Database) (t : list Event) :
  get_documents name flt limit {| db := Some d; trace := t |}
  = (Ok (take limit (find d name flt)),
     {| db := Some d; trace := (t ++ [EvFind name])%list |}).
Proof. reflexivity. Qed.

Lemma for_each_create (name : string) (docs : list Doc) (d : Database) (t : list Event) :
  for_each docs (fun doc => create_document name doc ;; ret tt) {| db := Some d; trace := t |}
  = (Ok tt,
     {| db := Some (insert_all name docs d);
        trace := (t ++ map (fun _ => EvInsert name) docs)%list |}).
Proof.
  revert d t. induction docs as [|doc docs IH]; intros d t.
  - cbn [for_each map insert_all fold_left]. now rewrite app_nil_r.
  - cbn [for_each]. unfold bind at 1. unfold bind at 1.
    rewrite create_document_run. cbn [ret]. rewrite IH.
    cbn [map insert_all fold_left]. now rewrite <- app_assoc.
Qed.

Lemma collection_insert_all (name : string) (docs : list Doc) (d : Database) :
  collection (insert_all name docs d) name
  = (collection d name ++ stamp (next_oid d) docs)%list.
Proof.
  revert d. induction docs as [|doc docs IH]; intros d.
  - cbn [insert_all fold_left stamp]. now rewrite app_nil_r.
  - cbn [insert_all fold_left stamp]. fold (insert_all name docs (fst (insert_one d name doc))).
    rewrite IH, collection_insert_one. cbn [insert_one fst next_oid].
    now rewrite <- app_assoc.
Qed.

Lemma collection_insert_all_ne (name other : string) (docs : list Doc) (d : Database) :
  name <> other -> collection (insert_all name docs d) other = collection d other.
Proof.
  intros Hne. revert d. induction docs as [|doc docs IH]; intros d; [reflexivity|].
  cbn [insert_all fold_left]. fold (insert_all name docs (fst (insert_one d name doc))).
  now rewrite IH, collection_insert_one_ne.
Qed.

Lemma normalize_stamped_demos (oid : N) :
  normalize_all (take 50 (stamp oid demos)) = Ok demo_items.
Proof. reflexivity. Qed.

(** [list_blog] on an initialized store whose [blogpost] collection is empty. *)
Lemma list_blog_empty (w : World) (d : Database) :
  db w = Some d ->
  collection d "blogpost" = [] ->
  list_blog w
  = (Ok demo_items,
     {| db := Some (insert_all "blogpost" demos d);
        trace := (trace w ++ [EvFind "blogpost"; EvInsert "blogpost"; EvInsert "blogpost";
                              EvInsert "blogpost"; EvFind "blogpost"])%list |}).
Proof.
  destruct w as [o t]. cbn [db trace]. intros -> Hempty.
  unfold list_blog, require_db. unfold bind at 1. cbn [get_db db]. unfold bind at 1.
  cbn [get_db ret db]. unfold bind at 1. rewrite get_documents_run, find_all, Hempty.
  cbn [take]. unfold bind at 1. unfold bind at 1. rewrite for_each_create.
  rewrite get_documents_run, find_all, collection_insert_all, Hempty.
  cbn [app lift]. rewrite normalize_stamped_demos.
  rewrite <- !app_assoc. reflexivity.
Qed.

(** [list_blog] on an initialized store that already holds posts. *)
Lemma list_blog_nonempty (w : World) (d : Database) :
  db w = Some d ->
  collection d "blogpost" <> [] ->
  list_blog w
  = (normalize_all (take 50 (collection d "blogpost")),
     {| db := Some d; trace := (trace w ++ [EvFind "blogpost"])%list |}).
Proof.
  destruct w as [o t]. cbn [db trace]. intros -> Hne.
  unfold list_blog, require_db. unfold bind at 1. cbn [get_db db]. unfold bind at 1.
  cbn [get_db ret db]. unfold bind at 1. rewrite get_documents_run, find_all.
  destruct (collection d "blogpost") as [|p ps]; [contradiction|].
  cbn [take]. unfold bind, ret, lift. reflexivity.
Qed.

Lemma normalize_defaults (p : Doc) (item : BlogItem.t) :
  normalize p = Ok item -> normalized p item.
Proof.
  unfold normalize. intros H.
  destruct (as_str _ (get_or p "title" _)) as [title|] eqn:Htitle; [|discriminate].
  destruct (as_str _ (get_or p "slug" _)) as [slug|] eqn:Hslug; [|discriminate].
  destruct (as_opt_str _ (get p "excerpt")) as [excerpt|] eqn:Hexcerpt; [|discriminate].
  destruct (as_str _ (get_or p "content" _)) as [content|] eqn:Hcontent; [|discriminate].
  destruct (as_opt_str _ (get p "author")) as [author|] eqn:Hauthor; [|discriminate].
  destruct (as_opt_list _ (get p "tags")) as [tags|] eqn:Htags; [|discriminate].
  cbn [rbind] in H. injection H as <-. unfold normalized. cbn [BlogItem.title BlogItem.slug BlogItem.content
    BlogItem.excerpt BlogItem.author BlogItem.tags].
  unfold get_or, get in *.
  repeat split; intros Hnone.
  - rewrite Hnone in Htitle. cbn in Htitle. congruence.
  - intros i Hid. rewrite Hnone, Hid in Hslug. cbn in Hslug. congruence.
  - rewrite Hnone in Hcontent. cbn in Hcontent. congruence.
  - rewrite Hnone in Hexcerpt. cbn in Hexcerpt. congruence.
  - rewrite Hnone in Hauthor. cbn in Hauthor. congruence.
  - rewrite Hnone in Htags. cbn in Htags. congruence.
Qed.

Lemma normalize_all_defaults (posts : list Doc) (items : list BlogItem.t) :
  normalize_all posts = Ok items -> Forall2 normalized posts items.
Proof.
  revert items. induction posts as [|p ps IH]; intros items; cbn [normalize_all].
  - intros [= <-]. constructor.
  - destruct (normalize p) as [b|] eqn:Hp; [|discriminate]. cbn [rbind].
    destruct (normalize_all ps) as [bs|]; [|discriminate]. cbn [rbind].
    intros [= <-]. constructor; [now apply normalize_defaults | now apply IH].
Qed.

(** ** Registration and login *)

(** C1, as stated, fails: a password of eight characters with a NUL among
    them is a valid request body (the only bound is the minimal length of
    6), yet [register] with it raises the hasher's [ValueError] on the
    empty store, whatever the salt. *)
Lemma register_nul_password_raises :
  RegisterRequest.valid ada_nul
  /\ (forall (bcrypt_raw : string -> string -> N) (salt : N),
        fst (register bcrypt_raw salt ada_nul world0)
        = Raise (ValueError "bcrypt does not allow NULL bytes in password")).
Proof.
  split; [unfold RegisterRequest.valid; vm_compute; lia|].
  intros bcrypt_raw salt. reflexivity.
Qed.

(** C1, amended. For a password the hasher works on (at most 4096
    characters, no NUL): on an initialized store that holds no account
    under the normalized address, [register] succeeds, a following [login]
    with the same address and password succeeds, and both return the same
    identity, the name supplied and the normalized address. *)
Theorem register_then_login
    (bcrypt_raw : string -> string -> N) (salt : N)
    (payload : RegisterRequest.t) (w : World) (d : Database) :
  db w = Some d ->
  find_one d "user" (email_filter (lower (RegisterRequest.email payload))) = None ->
  secret_ok (RegisterRequest.password payload) = true ->
  exists (r : AuthResponse.t) (w1 w2 : World),
    register bcrypt_raw salt payload w = (Ok r, w1)
    /\ login bcrypt_raw
         (LoginRequest.mk (RegisterRequest.email payload) (RegisterRequest.password payload)) w1
       = (Ok r, w2)
    /\ AuthResponse.name r = RegisterRequest.name payload
    /\ AuthResponse.email r = lower (RegisterRequest.email payload).
Proof.
  intros Hdb Hnone Hok.
  eexists _, _, _.
  split; [exact (register_fresh bcrypt_raw salt payload w d Hdb Hnone Hok)|].
  split; [|split; reflexivity].
  erewrite login_known;
    [ | reflexivity | exact (find_one_after_register bcrypt_raw salt payload d Hnone)].
  rewrite stored_user_hash. cbn [LoginRequest.password].
  rewrite (verify_hash_same bcrypt_raw salt _ Hok). cbn [login_outcome].
  destruct (stored_user_fields bcrypt_raw salt payload d) as (-> & -> & ->).
  reflexivity.
Qed.

Lemma register_then_login_witness :
  exists (r : AuthResponse.t) (w1 w2 : World),
    register demo_raw 7 ada world0 = (Ok r, w1)
    /\ login demo_raw
         (LoginRequest.mk (RegisterRequest.email ada) (RegisterRequest.password ada)) w1
       = (Ok r, w2)
    /\ AuthResponse.name r = RegisterRequest.name ada
    /\ AuthResponse.email r = lower (RegisterRequest.email ada).
Proof. apply (register_then_login demo_raw 7 ada world0 empty_db); reflexivity. Defined.

(** C2, as stated, fails: with a valid password that holds a NUL the first
    [register] raises the hasher's [ValueError] and stores nothing, so the
    second call, with the same body, raises it again and not
    [DuplicateEmail]. *)
Lemma register_twice_nul_password :
  RegisterRequest.valid ada_nul
  /\ (forall (bcrypt_raw : string -> string -> N) (salt1 salt2 : N),
        fst (register bcrypt_raw salt1 ada_nul world0)
        = Raise (ValueError "bcrypt does not allow NULL bytes in password")
        /\ fst (register bcrypt_raw salt2 ada_nul
                  (snd (register bcrypt_raw salt1 ada_nul world0)))
           = Raise (ValueError "bcrypt does not allow NULL bytes in password")).
Proof.
  split; [unfold RegisterRequest.valid; vm_compute; lia|].
  intros bcrypt_raw salt1 salt2. split; reflexivity.
Qed.

(** C2, amended. When [register] is called twice in a row with addresses
    that are equal after lower-casing, starting from an initialized store
    with no account under that address, and the first call's password is
    one the hasher works on (at most 4096 characters, no NUL), the first
    call succeeds and the second fails with [DuplicateEmail] (status 400,
    "Email already registered"), whatever name, password and salt the
    second call carries. *)
Theorem register_twice_duplicate
    (bcrypt_raw : string -> string -> N) (salt1 salt2 : N)
    (first second : RegisterRequest.t) (w : World) (d : Database) :
  db w = Some d ->
  find_one d "user" (email_filter (lower (RegisterRequest.email first))) = None ->
  secret_ok (RegisterRequest.password first) = true ->
  lower (RegisterRequest.email second) = lower (RegisterRequest.email first) ->
  exists (r : AuthResponse.t) (w1 w2 : World),
    register bcrypt_raw salt1 first w = (Ok r, w1)
    /\ register bcrypt_raw salt2 second w1
       = (Raise (HTTPException 400 "Email already registered"), w2).
Proof.
  intros Hdb Hnone Hok Hsame.
  eexists _, _, _.
  split; [exact (register_fresh bcrypt_raw salt1 first w d Hdb Hnone Hok)|].
  eapply register_taken; [reflexivity|].
  rewrite Hsame. exact (find_one_after_register bcrypt_raw salt1 first d Hnone).
Qed.

Lemma register_twice_duplicate_witness :
  exists (r : AuthResponse.t) (w1 w2 : World),
    register demo_raw 7 ada world0 = (Ok r, w1)
    /\ register demo_raw 8 ada_again w1
       = (Raise (HTTPException 400 "Email already registered"), w2).
Proof.
  apply (register_twice_duplicate demo_raw 7 8 ada ada_again world0 empty_db); reflexivity.
Defined.




(** ** Failures and the store *)

(** C9. A failing call leaves the store as it was: when [register] fails
    with [DuplicateEmail], or [login] fails with [InvalidCredentials], [db]
    after the call, with every collection in it, equals [db] before it. *)
Theorem failures_keep_store
    (bcrypt_raw : string -> string -> N) (salt : N)
    (reg : RegisterRequest.t) (log_in : LoginRequest.t) (w : World) :
  (fst (register bcrypt_raw salt reg w) = Raise DuplicateEmail ->
   db (snd (register bcrypt_raw salt reg w)) = db w)
  /\ (fst (login bcrypt_raw log_in w) = Raise InvalidCredentials ->
      db (snd (login bcrypt_raw log_in w)) = db w).
Proof.
  split.
  - apply register_failure_keeps_store.
  - intros _. apply login_keeps_store.
Qed.

Lemma failures_keep_store_witness :
  db (snd (register demo_raw 8 ada_again world_ada)) = db world_ada
  /\ db (snd (login demo_raw ada_wrong world_ada)) = db world_ada.
Proof.
  destruct (failures_keep_store demo_raw 8 ada_again ada_wrong world_ada) as [Hr Hl].
  split; [apply Hr | apply Hl]; reflexivity.
Defined.

(** C10. A successful [register] returns the lower-cased address, and the
    account document it persisted, the one carrying the returned identity,
    holds the lower-cased address too; so an address with an upper-case
    letter comes back different from the one supplied. *)
Theorem register_normalizes_email
    (bcrypt_raw : string -> string -> N) (salt : N) (payload : RegisterRequest.t)
    (w w' : World) (r : AuthResponse.t) :
  register bcrypt_raw salt payload w = (Ok r, w') ->
  AuthResponse.email r = lower (RegisterRequest.email payload)
  /\ (exists (d' : Database) (u : Doc),
        db w' = Some d'
        /\ last (collection d' "user") = Some u
        /\ py_str (get u "_id") = AuthResponse.id r
        /\ u !! "email" = Some (VStr (lower (RegisterRequest.email payload))))
  /\ (has_upper (RegisterRequest.email payload) = true ->
      AuthResponse.email r <> RegisterRequest.email payload).
Proof.
  intros Hrun.
  destruct (db w) as [d|] eqn:Hdb;
    [|rewrite (register_uninitialized bcrypt_raw salt payload w Hdb) in Hrun; discriminate].
  destruct (find_one d "user" (email_filter (lower (RegisterRequest.email payload))))
    as [u|] eqn:Hf;
    [rewrite (register_taken bcrypt_raw salt payload w d u Hdb Hf) in Hrun; discriminate|].
  destruct (secret_ok (RegisterRequest.password payload)) eqn:Hok;
    [|destruct (register_refused bcrypt_raw salt payload w d Hdb Hf Hok) as [msg Hmsg];
      rewrite Hmsg in Hrun; discriminate].
  rewrite (register_fresh bcrypt_raw salt payload w d Hdb Hf Hok) in Hrun.
  injection Hrun as <- <-. cbn [AuthResponse.email AuthResponse.id db].
  split; [reflexivity|]. split.
  - exists (after_register bcrypt_raw salt payload d), (stored_user bcrypt_raw salt payload d).
    split; [reflexivity|]. split.
    + unfold after_register. rewrite collection_insert_one. apply last_snoc.
    + split; reflexivity.
  - apply lower_has_upper.
Qed.

Lemma register_normalizes_email_witness :
  AuthResponse.email ada_response = lower (RegisterRequest.email ada)
  /\ (exists (d' : Database) (u : Doc),
        db world_ada = Some d'
        /\ last (collection d' "user") = Some u
        /\ py_str (get u "_id") = AuthResponse.id ada_response
        /\ u !! "email" = Some (VStr (lower (RegisterRequest.email ada))))
  /\ (has_upper (RegisterRequest.email ada) = true ->
      AuthResponse.email ada_response <> RegisterRequest.email ada).
Proof.
  apply (register_normalizes_email demo_raw 7 ada world0 world_ada ada_response).
  reflexivity.
Defined.

(** ** The uninitialized store *)

(** C8. With the store not initialized ([db] is [None]), each of
    [register], [login], [create_contact] and [list_blog] fails with
    [StorageUnavailable] (status 500, "Database not configured") and the
    state is returned untouched: the log gains no read, no write and no
    hasher call. *)
Theorem uninitialized_store_fails_first
    (bcrypt_raw : string -> string -> N) (salt : N)
    (reg : RegisterRequest.t) (log_in : LoginRequest.t) (contact : ContactRequest.t)
    (w : World) :
  db w = None ->
  register bcrypt_raw salt reg w = (Raise (HTTPException 500 "Database not configured"), w)
  /\ login bcrypt_raw log_in w = (Raise (HTTPException 500 "Database not configured"), w)
  /\ create_contact contact w = (Raise (HTTPException 500 "Database not configured"), w)
  /\ list_blog w = (Raise (HTTPException 500 "Database not configured"), w).
Proof.
  intros Hdb. split; [|split; [|split]].
  - exact (register_uninitialized bcrypt_raw salt reg w Hdb).
  - exact (login_uninitialized bcrypt_raw log_in w Hdb).
  - destruct w as [o t]. cbn [db] in Hdb. subst o.
    unfold create_contact. run_route. reflexivity.
  - destruct w as [o t]. cbn [db] in Hdb. subst o.
    unfold list_blog. run_route. reflexivity.
Qed.

Lemma uninitialized_store_fails_first_witness :
  register demo_raw 7 ada world_down
    = (Raise (HTTPException 500 "Database not configured"), world_down)
  /\ login demo_raw ada_login world_down
     = (Raise (HTTPException 500 "Database not configured"), world_down)
  /\ create_contact hello world_down
     = (Raise (HTTPException 500 "Database not configured"), world_down)
  /\ list_blog world_down = (Raise (HTTPException 500 "Database not configured"), world_down).
Proof.
  apply (uninitialized_store_fails_first demo_raw 7 ada ada_login hello world_down).
  reflexivity.
Defined.

(** ** The blog listing *)

(** C6. On an initialized store whose [blogpost] collection is empty,
    [list_blog] inserts the three demo posts, exactly those and into that
    collection only, and returns
    three entries with the slugs announcing-cardify, glassmorphism-design
    and infra-stack; a second call returns the same entries and leaves the
    store as the first call left it, performing one read and no insert. *)
Theorem list_blog_seeds_once (w : World) (d : Database) :
  db w = Some d ->
  collection d "blogpost" = [] ->
  exists (items : list BlogItem.t) (w1 w2 : World) (d1 : Database),
    list_blog w = (Ok items, w1)
    /\ map BlogItem.slug items
       = ["announcing-cardify"; "glassmorphism-design"; "infra-stack"]
    /\ db w1 = Some d1
    /\ collection d1 "blogpost" = stamp (next_oid d) demos
    /\ length (collection d1 "blogpost") = 3
    /\ (forall other : string,
          other <> "blogpost" -> collection d1 other = collection d other)
    /\ list_blog w1 = (Ok items, w2)
    /\ db w2 = db w1
    /\ trace w2 = (trace w1 ++ [EvFind "blogpost"])%list.
Proof.
  intros Hdb Hempty.
  assert (Hseeded : collection (insert_all "blogpost" demos d) "blogpost"
                    = stamp (next_oid d) demos)
    by now rewrite collection_insert_all, Hempty.
  eexists _, _, _, _. split; [exact (list_blog_empty w d Hdb Hempty)|].
  split; [reflexivity|]. split; [reflexivity|]. split; [exact Hseeded|].
  split; [now rewrite Hseeded|].
  split; [intros other Hne; apply collection_insert_all_ne; congruence|].
  erewrite list_blog_nonempty; [ | reflexivity | rewrite Hseeded; discriminate ].
  rewrite Hseeded, normalize_stamped_demos. repeat split.
Qed.

Lemma list_blog_seeds_once_witness :
  exists (items : list BlogItem.t) (w1 w2 : World) (d1 : Database),
    list_blog world0 = (Ok items, w1)
    /\ map BlogItem.slug items
       = ["announcing-cardify"; "glassmorphism-design"; "infra-stack"]
    /\ db w1 = Some d1
    /\ collection d1 "blogpost" = stamp (next_oid empty_db) demos
    /\ length (collection d1 "blogpost") = 3
    /\ (forall other : string,
          other <> "blogpost" -> collection d1 other = collection empty_db other)
    /\ list_blog w1 = (Ok items, w2)
    /\ db w2 = db w1
    /\ trace w2 = (trace w1 ++ [EvFind "blogpost"])%list.
Proof. apply (list_blog_seeds_once world0 empty_db); reflexivity. Defined.

(** C7. Whenever [list_blog] returns, its entries stand one for one for the
    (at most 50) documents of the [blogpost] collection, and in each entry a
    missing title is "Untitled", a missing slug is the text of the
    document's identity, a missing content is the empty text, and a missing
    excerpt, author or tags field is absent ([None]). *)
Theorem list_blog_normalizes (w w' : World) (items : list BlogItem.t) :
  list_blog w = (Ok items, w') ->
  exists d' : Database,
    db w' = Some d'
    /\ Forall2 normalized (take 50 (collection d' "blogpost")) items.
Proof.
  intros Hrun. destruct w as [[d|] t].
  - destruct (collection d "blogpost") as [|p ps] eqn:Hposts.
    + rewrite (list_blog_empty {| db := Some d; trace := t |} d eq_refl Hposts) in Hrun.
      injection Hrun as <- <-.
      exists (insert_all "blogpost" demos d). split; [reflexivity|].
      apply normalize_all_defaults.
      rewrite collection_insert_all, Hposts. apply normalize_stamped_demos.
    + rewrite (list_blog_nonempty {| db := Some d; trace := t |} d eq_refl) in Hrun
        by (rewrite Hposts; discriminate).
      injection Hrun as Hitems <-. exists d. split; [reflexivity|].
      now apply normalize_all_defaults.
  - unfold list_blog in Hrun. revert Hrun. run_route. discriminate.
Qed.

Lemma list_blog_normalizes_witness :
  exists d' : Database,
    db (snd (list_blog world_bare)) = Some d'
    /\ Forall2 normalized (take 50 (collection d' "blogpost")) [bare_item].
Proof. apply (list_blog_normalizes world_bare _ [bare_item]). reflexivity. Defined.

(** ** Counting: more keys than checksums *)













(** ** The hasher on its own *)

(** C3. What the code does where the claim expects [InvalidCredentials]:
    [login] against an account document without a [password_hash] field
    hands the default [""] to the password context, whose [verify] raises
    [ValueError] for it, as it does for every text that is not shaped like
    a bcrypt hash; nothing catches the exception, so [login] ends with it
    and not with the 400 "Invalid email or password" error. *)
Theorem login_without_password_hash_raises (bcrypt_raw : string -> string -> N) :
  (exists msg : string,
     fst (login bcrypt_raw eve_login world_legacy) = Raise (ValueError msg))
  /\ fst (login bcrypt_raw eve_login world_legacy) <> Raise InvalidCredentials
  /\ (forall secret hash : string,
        identify hash = false ->
        exists msg : string,
          pwd_context_verify bcrypt_raw secret (VStr hash) = Raise (ValueError msg)).
Proof.
  assert (Hrun : fst (login bcrypt_raw eve_login world_legacy)
                 = Raise (ValueError "no hash specified")).
  { erewrite login_known; [ | reflexivity | reflexivity ]. reflexivity. }
  split; [eauto|]. split; [rewrite Hrun; discriminate|].
  intros secret hash. apply verify_unidentified.
Qed.




(** ** Contact intake *)

(** X1. On an initialized store [create_contact] appends one document to the
    [contactmessage] collection, the payload's three fields verbatim under
    a fresh identity, leaves every other collection alone, and answers with
    status "ok" and that identity. *)
Theorem create_contact_persists (payload : ContactRequest.t) (w : World) (d : Database) :
  db w = Some d ->
  exists d' : Database,
    create_contact payload w
    = (Ok (dict [("status", VStr "ok"); ("id", VStr (oid_str (next_oid d)))]),
       {| db := Some d'; trace := (trace w ++ [EvInsert "contactmessage"])%list |})
    /\ collection d' "contactmessage"
       = (collection d "contactmessage"
          ++ [<["_id" := VObjectId (next_oid d)]> (ContactRequest.model_dump payload)])%list
    /\ (forall other : string,
          other <> "contactmessage" -> collection d' other = collection d other).
Proof.
  destruct w as [o t]. cbn [db trace]. intros ->.
  exists (fst (insert_one d "contactmessage" (ContactRequest.model_dump payload))).
  split; [reflexivity|]. split.
  - apply collection_insert_one.
  - intros other Hne. apply collection_insert_one_ne. congruence.
Qed.

Lemma create_contact_persists_witness :
  exists d' : Database,
    create_contact hello world0
    = (Ok (dict [("status", VStr "ok"); ("id", VStr (oid_str (next_oid empty_db)))]),
       {| db := Some d'; trace := (trace world0 ++ [EvInsert "contactmessage"])%list |})
    /\ collection d' "contactmessage"
       = (collection empty_db "contactmessage"
          ++ [<["_id" := VObjectId (next_oid empty_db)]> (ContactRequest.model_dump hello)])%list
    /\ (forall other : string,
          other <> "contactmessage" -> collection d' other = collection empty_db other).
Proof. apply (create_contact_persists hello world0 empty_db). reflexivity. Defined.

(** ** Further properties of the routes *)

Lemma is_upper_lower_char (c : ascii) : is_upper (lower_char c) = false.
Proof.
  destruct (is_upper c) eqn:H.
  - pose proof (TextFacts.nat_of_lower_upper c H) as E.
    apply TextFacts.is_upper_bounds in H.
    unfold is_upper. rewrite E. apply andb_false_iff. right. apply Nat.leb_gt. lia.
  - unfold lower_char. now rewrite H.
Qed.

Lemma has_upper_lower (s : string) : has_upper (lower s) = false.
Proof.
  induction s as [|c s IH]; [reflexivity|].
  cbn [lower has_upper]. now rewrite is_upper_lower_char, IH.
Qed.

Lemma stored_user_matches (bcrypt_raw : string -> string -> N) (salt : N)
    (payload : RegisterRequest.t) (d : Database) (e : string) :
  doc_matches (email_filter e) (stored_user bcrypt_raw salt payload d)
  = bool_decide (e = lower (RegisterRequest.email payload)).
Proof.
  destruct (doc_matches _ _) eqn:Hm.
  - apply doc_matches_email in Hm. symmetry. apply bool_decide_eq_true.
    destruct (stored_user_fields bcrypt_raw salt payload d) as (_ & He & _).
    unfold get in He. rewrite Hm in He. cbn in He. congruence.
  - symmetry. apply bool_decide_eq_false. intros ->.
    assert (doc_matches (email_filter (lower (RegisterRequest.email payload)))
              (stored_user bcrypt_raw salt payload d) = true) as Ht
      by (apply doc_matches_email; reflexivity).
    congruence.
Qed.

Lemma find_after_register (bcrypt_raw : string -> string -> N) (salt : N)
    (payload : RegisterRequest.t) (d : Database) (e : string) :
  find (after_register bcrypt_raw salt payload d) "user" (email_filter e)
  = (find d "user" (email_filter e)
     ++ if bool_decide (e = lower (RegisterRequest.email payload))
        then [stored_user bcrypt_raw salt payload d] else [])%list.
Proof.
  unfold after_register. rewrite find_insert_one. cbn [List.filter].
  fold (stored_user bcrypt_raw salt payload d). now rewrite stored_user_matches.
Qed.

(** What [register] leaves in [db]: the store with the new account when the
    address was free and the hasher took the password, the store as it was
    otherwise. *)
Lemma register_store (bcrypt_raw : string -> string -> N) (salt : N)
    (payload : RegisterRequest.t) (w : World) (d : Database) :
  db w = Some d ->
  db (snd (register bcrypt_raw salt payload w))
  = Some (match find_one d "user" (email_filter (lower (RegisterRequest.email payload))) with
          | None =>
              if secret_ok (RegisterRequest.password payload)
              then after_register bcrypt_raw salt payload d else d
          | Some _ => d
          end).
Proof.
  intros Hdb.
  destruct (find_one d "user" _) as [u|] eqn:Hf.
  - now rewrite (register_taken bcrypt_raw salt payload w d u Hdb Hf).
  - destruct (secret_ok (RegisterRequest.password payload)) eqn:Hok.
    + now rewrite (register_fresh bcrypt_raw salt payload w d Hdb Hf Hok).
    + now destruct (register_refused bcrypt_raw salt payload w d Hdb Hf Hok) as [msg ->].
Qed.

(** X2. A successful [register] adds exactly one document to the [user]
    collection, at its end: the name, the lower-cased address, an active
    flag and a 60-character hash that verifies the password, under the
    identity the response carries. No other collection changes. *)
Theorem register_persists_account
    (bcrypt_raw : string -> string -> N) (salt : N) (payload : RegisterRequest.t)
    (w w' : World) (r : AuthResponse.t) :
  register bcrypt_raw salt payload w = (Ok r, w') ->
  exists (d d' : Database) (h : string),
    db w = Some d
    /\ db w' = Some d'
    /\ collection d' "user"
       = (collection d "user"
          ++ [dict [ ("_id", VObjectId (next_oid d));
                     ("name", VStr (RegisterRequest.name payload));
                     ("email", VStr (lower (RegisterRequest.email payload)));
                     ("password_hash", VStr h);
                     ("is_active", VBool true) ]])%list
    /\ (forall other : string, other <> "user" -> collection d' other = collection d other)
    /\ AuthResponse.id r = oid_str (next_oid d)
    /\ String.length h = 60
    /\ pwd_context_verify bcrypt_raw (RegisterRequest.password payload) (VStr h) = Ok true.
Proof.
  intros Hrun.
  destruct (db w) as [d|] eqn:Hdb;
    [|rewrite (register_uninitialized bcrypt_raw salt payload w Hdb) in Hrun; discriminate].
  destruct (find_one d "user" (email_filter (lower (RegisterRequest.email payload))))
    as [u|] eqn:Hf;
    [rewrite (register_taken bcrypt_raw salt payload w d u Hdb Hf) in Hrun; discriminate|].
  destruct (secret_ok (RegisterRequest.password payload)) eqn:Hok;
    [|destruct (register_refused bcrypt_raw salt payload w d Hdb Hf Hok) as [msg Hmsg];
      rewrite Hmsg in Hrun; discriminate].
  rewrite (register_fresh bcrypt_raw salt payload w d Hdb Hf Hok) in Hrun.
  injection Hrun as <- <-.
  exists d, (after_register bcrypt_raw salt payload d),
    (bcrypt_hash bcrypt_raw salt (RegisterRequest.password payload)).
  split; [reflexivity|]. split; [reflexivity|]. split.
  { unfold after_register. now rewrite collection_insert_one. }
  split.
  { intros other Hne. unfold after_register. apply collection_insert_one_ne. congruence. }
  split; [reflexivity|]. split.
  - rewrite bcrypt_hash_eq, TextFacts.length_append,
      length_bcrypt_config, length_bcrypt_checksum. reflexivity.
  - exact (verify_hash_same bcrypt_raw salt _ Hok).
Qed.

Lemma register_persists_account_witness :
  exists (d d' : Database) (h : string),
    db world0 = Some d
    /\ db world_ada = Some d'
    /\ collection d' "user"
       = (collection d "user"
          ++ [dict [ ("_id", VObjectId (next_oid d));
                     ("name", VStr (RegisterRequest.name ada));
                     ("email", VStr (lower (RegisterRequest.email ada)));
                     ("password_hash", VStr h);
                     ("is_active", VBool true) ]])%list
    /\ (forall other : string, other <> "user" -> collection d' other = collection d other)
    /\ AuthResponse.id ada_response = oid_str (next_oid d)
    /\ String.length h = 60
    /\ pwd_context_verify demo_raw (RegisterRequest.password ada) (VStr h) = Ok true.
Proof.
  apply (register_persists_account demo_raw 7 ada world0 world_ada ada_response).
  reflexivity.
Defined.

(** X3. [register] keeps addresses unique: when no two account documents
    share an address before the call, none do after it, whether the call
    succeeds or fails. *)
Theorem register_keeps_emails_unique
    (bcrypt_raw : string -> string -> N) (salt : N) (payload : RegisterRequest.t)
    (w : World) (d d' : Database) :
  db w = Some d ->
  emails_unique d ->
  db (snd (register bcrypt_raw salt payload w)) = Some d' ->
  emails_unique d'.
Proof.
  intros Hdb Huniq Hafter.
  rewrite (register_store bcrypt_raw salt payload w d Hdb) in Hafter.
  injection Hafter as <-.
  destruct (find_one d "user" _) as [u|] eqn:Hf; [exact Huniq|].
  destruct (secret_ok (RegisterRequest.password payload)); [|exact Huniq].
  intros e. rewrite find_after_register. case_bool_decide as He.
  - subst e. rewrite (find_one_None _ _ _ Hf). cbn. lia.
  - rewrite app_nil_r. apply Huniq.
Qed.

Lemma register_keeps_emails_unique_witness : emails_unique db_ada.
Proof.
  apply (register_keeps_emails_unique demo_raw 7 ada world0 empty_db db_ada).
  - reflexivity.
  - intros e. vm_compute. lia.
  - reflexivity.
Defined.

(** X4. [register] keeps addresses in lower case: when every address in
    the [user] collection is lower-case before the call, every one is
    after it. *)
Theorem register_keeps_emails_lower
    (bcrypt_raw : string -> string -> N) (salt : N) (payload : RegisterRequest.t)
    (w : World) (d d' : Database) :
  db w = Some d ->
  emails_lower d ->
  db (snd (register bcrypt_raw salt payload w)) = Some d' ->
  emails_lower d'.
Proof.
  intros Hdb Hlow Hafter.
  rewrite (register_store bcrypt_raw salt payload w d Hdb) in Hafter.
  injection Hafter as <-.
  destruct (find_one d "user" _) as [u|] eqn:Hf; [exact Hlow|].
  destruct (secret_ok (RegisterRequest.password payload)); [|exact Hlow].
  unfold emails_lower, after_register. rewrite collection_insert_one.
  apply Forall_app. split; [exact Hlow|].
  constructor; [|constructor].
  fold (stored_user bcrypt_raw salt payload d). intros e He.
  destruct (stored_user_fields bcrypt_raw salt payload d) as (_ & Hemail & _).
  unfold get in Hemail. rewrite He in Hemail. cbn in Hemail.
  injection Hemail as ->. apply has_upper_lower.
Qed.

Lemma register_keeps_emails_lower_witness : emails_lower db_ada.
Proof.
  apply (register_keeps_emails_lower demo_raw 7 ada world0 empty_db db_ada).
  - reflexivity.
  - constructor.
  - reflexivity.
Defined.

(** X5. Capitalisation of the address does not matter at [login]: after a
    registration, with a password the hasher works on (at most 4096
    characters, no NUL), on a store that had no account under the address,
    a login with the same password and any spelling of the address that
    lower-cases to the same text succeeds and returns what [register]
    returned. *)
Theorem register_then_login_any_case
    (bcrypt_raw : string -> string -> N) (salt : N) (payload : RegisterRequest.t)
    (spelling : string) (w : World) (d : Database) :
  db w = Some d ->
  find_one d "user" (email_filter (lower (RegisterRequest.email payload))) = None ->
  secret_ok (RegisterRequest.password payload) = true ->
  lower spelling = lower (RegisterRequest.email payload) ->
  exists (r : AuthResponse.t) (w1 w2 : World),
    register bcrypt_raw salt payload w = (Ok r, w1)
    /\ login bcrypt_raw (LoginRequest.mk spelling (RegisterRequest.password payload)) w1
       = (Ok r, w2).
Proof.
  intros Hdb Hnone Hok Hcase.
  eexists _, _, _.
  split; [exact (register_fresh bcrypt_raw salt payload w d Hdb Hnone Hok)|].
  erewrite login_known; [ | reflexivity | ].
  2:{ cbn [LoginRequest.email]. rewrite Hcase.
      exact (find_one_after_register bcrypt_raw salt payload d Hnone). }
  rewrite stored_user_hash. cbn [LoginRequest.password].
  rewrite (verify_hash_same bcrypt_raw salt _ Hok). cbn [login_outcome].
  destruct (stored_user_fields bcrypt_raw salt payload d) as (-> & -> & ->).
  reflexivity.
Qed.

Lemma register_then_login_any_case_witness :
  exists (r : AuthResponse.t) (w1 w2 : World),
    register demo_raw 7 ada world0 = (Ok r, w1)
    /\ login demo_raw (LoginRequest.mk "ADA@EXAMPLE.COM" (RegisterRequest.password ada)) w1
       = (Ok r, w2).
Proof.
  apply (register_then_login_any_case demo_raw 7 ada "ADA@EXAMPLE.COM" world0 empty_db);
    reflexivity.
Defined.

(** X6. [login] succeeds only through a verified password: when it returns
    a response, the first account document under the lower-cased address
    exists, its stored hash verifies the password supplied, and the
    response carries that document's identity, name and address, the
    address being the lower-cased one. *)
Theorem login_success_sound
    (bcrypt_raw : string -> string -> N) (payload : LoginRequest.t)
    (w w' : World) (r : AuthResponse.t) :
  login bcrypt_raw payload w = (Ok r, w') ->
  exists (d : Database) (u : Doc),
    db w = Some d
    /\ find_one d "user" (email_filter (lower (LoginRequest.email payload))) = Some u
    /\ pwd_context_verify bcrypt_raw (LoginRequest.password payload)
         (get_or u "password_hash" (VStr "")) = Ok true
    /\ AuthResponse.id r = py_str (get u "_id")
    /\ u !! "name" = Some (VStr (AuthResponse.name r))
    /\ AuthResponse.email r = lower (LoginRequest.email payload).
Proof.
  intros Hrun.
  destruct (db w) as [d|] eqn:Hdb;
    [|rewrite (login_uninitialized bcrypt_raw payload w Hdb) in Hrun; discriminate].
  destruct (find_one d "user" (email_filter (lower (LoginRequest.email payload))))
    as [u|] eqn:Hf;
    [|rewrite (login_unknown bcrypt_raw payload w d Hdb Hf) in Hrun; discriminate].
  rewrite (login_known bcrypt_raw payload w d u Hdb Hf) in Hrun.
  injection Hrun as Hout _.
  exists d, u. split; [reflexivity|]. split; [exact Hf|].
  destruct (pwd_context_verify _ _ _) as [[|]|e]; cbn [login_outcome] in Hout;
    try discriminate.
  split; [reflexivity|].
  pose proof (doc_matches_email (lower (LoginRequest.email payload)) u) as Hm.
  assert (u !! "email" = Some (VStr (lower (LoginRequest.email payload)))) as Hemail.
  { apply Hm. unfold find_one, find in Hf.
    apply head_Some_elem_of, list_elem_of_In, filter_In in Hf. tauto. }
  unfold get in Hout. rewrite Hemail in Hout.
  destruct (u !! "name") as [[| | name | |]|]; cbn in Hout; try discriminate.
  injection Hout as <-. repeat split.
Qed.

Lemma login_success_sound_witness :
  exists (d : Database) (u : Doc),
    db world_ada = Some d
    /\ find_one d "user" (email_filter (lower (LoginRequest.email ada_login))) = Some u
    /\ pwd_context_verify demo_raw (LoginRequest.password ada_login)
         (get_or u "password_hash" (VStr "")) = Ok true
    /\ AuthResponse.id ada_response = py_str (get u "_id")
    /\ u !! "name" = Some (VStr (AuthResponse.name ada_response))
    /\ AuthResponse.email ada_response = lower (LoginRequest.email ada_login).
Proof.
  apply (login_success_sound demo_raw ada_login world_ada
           (snd (login demo_raw ada_login world_ada)) ada_response).
  reflexivity.
Defined.

(** X7. Registering one address does not touch the login of another: for
    addresses that differ after lower-casing, a [login] gives the same
    outcome after the [register] call as before it, whether that call
    succeeded or failed. *)
Theorem register_keeps_other_logins
    (bcrypt_raw : string -> string -> N) (salt : N)
    (reg : RegisterRequest.t) (log_in : LoginRequest.t) (w : World) :
  lower (LoginRequest.email log_in) <> lower (RegisterRequest.email reg) ->
  fst (login bcrypt_raw log_in (snd (register bcrypt_raw salt reg w)))
  = fst (login bcrypt_raw log_in w).
Proof.
  intros Hother.
  destruct (db w) as [d|] eqn:Hdb;
    [|now rewrite (register_uninitialized bcrypt_raw salt reg w Hdb)].
  pose proof (register_store bcrypt_raw salt reg w d Hdb) as Hafter.
  destruct (find_one d "user" (email_filter (lower (RegisterRequest.email reg))))
    as [u0|] eqn:Hreg.
  - destruct (find_one d "user" (email_filter (lower (LoginRequest.email log_in))))
      as [u|] eqn:Hf.
    + now rewrite (login_known bcrypt_raw log_in _ d u Hafter Hf),
        (login_known bcrypt_raw log_in w d u Hdb Hf).
    + now rewrite (login_unknown bcrypt_raw log_in _ d Hafter Hf),
        (login_unknown bcrypt_raw log_in w d Hdb Hf).
  - destruct (secret_ok (RegisterRequest.password reg)).
    2:{ destruct (find_one d "user" (email_filter (lower (LoginRequest.email log_in))))
          as [u|] eqn:Hf.
        - now rewrite (login_known bcrypt_raw log_in _ d u Hafter Hf),
            (login_known bcrypt_raw log_in w d u Hdb Hf).
        - now rewrite (login_unknown bcrypt_raw log_in _ d Hafter Hf),
            (login_unknown bcrypt_raw log_in w d Hdb Hf). }
    assert (find_one (after_register bcrypt_raw salt reg d) "user"
              (email_filter (lower (LoginRequest.email log_in)))
            = find_one d "user" (email_filter (lower (LoginRequest.email log_in)))) as Hsame.
    { unfold find_one. rewrite find_after_register.
      rewrite bool_decide_eq_false_2 by exact Hother. now rewrite app_nil_r. }
    destruct (find_one d "user" (email_filter (lower (LoginRequest.email log_in))))
      as [u|] eqn:Hf.
    + now rewrite (login_known bcrypt_raw log_in _ _ u Hafter Hsame),
        (login_known bcrypt_raw log_in w d u Hdb Hf).
    + now rewrite (login_unknown bcrypt_raw log_in _ _ Hafter Hsame),
        (login_unknown bcrypt_raw log_in w d Hdb Hf).
Qed.

Lemma register_keeps_other_logins_witness :
  fst (login demo_raw ada_login (snd (register demo_raw 9 bob world_ada)))
  = fst (login demo_raw ada_login world_ada).
Proof.
  apply (register_keeps_other_logins demo_raw 9 bob ada_login world_ada).
  vm_compute. discriminate.
Defined.

(** ** Further properties of the blog listing *)

Lemma normalize_all_length (posts : list Doc) (items : list BlogItem.t) :
  normalize_all posts = Ok items -> length items = length posts.
Proof.
  intros H. apply normalize_all_defaults in H. symmetry. exact (Forall2_length _ _ _ H).
Qed.

Lemma normalize_error (p : Doc) (e : Exn) :
  normalize p = Raise e -> e = ValidationError "BlogItem".
Proof.
  unfold normalize, as_str, as_opt_str, as_opt_list.
  destruct (get_or p "title" _); cbn [rbind]; try congruence;
  destruct (get_or p "slug" _); cbn [rbind]; try congruence;
  destruct (get p "excerpt"); cbn [rbind]; try congruence;
  destruct (get_or p "content" _); cbn [rbind]; try congruence;
  destruct (get p "author"); cbn [rbind]; try congruence;
  destruct (get p "tags"); cbn [rbind]; congruence.
Qed.

Lemma normalize_all_error (posts : list Doc) (e : Exn) :
  normalize_all posts = Raise e -> exists p : Doc, In p posts /\ normalize p = Raise e.
Proof.
  induction posts as [|p ps IH]; cbn [normalize_all]; [discriminate|].
  destruct (normalize p) as [b|e0] eqn:Hp; cbn [rbind].
  - destruct (normalize_all ps) as [bs|e1]; cbn [rbind]; [discriminate|].
    intros [= <-]. destruct (IH eq_refl) as (q & Hq & Hn). exists q. split; [now right|exact Hn].
  - intros [= <-]. exists p. split; [now left|exact Hp].
Qed.

Lemma normalize_passes (p : Doc) (item : BlogItem.t) :
  normalize p = Ok item -> passes_fields p item.
Proof.
  unfold normalize. intros H.
  destruct (as_str _ (get_or p "title" _)) as [title|] eqn:Htitle; [|discriminate].
  destruct (as_str _ (get_or p "slug" _)) as [slug|] eqn:Hslug; [|discriminate].
  destruct (as_opt_str _ (get p "excerpt")) as [excerpt|] eqn:Hexcerpt; [|discriminate].
  destruct (as_str _ (get_or p "content" _)) as [content|] eqn:Hcontent; [|discriminate].
  destruct (as_opt_str _ (get p "author")) as [author|] eqn:Hauthor; [|discriminate].
  destruct (as_opt_list _ (get p "tags")) as [tags|] eqn:Htags; [|discriminate].
  cbn [rbind] in H. injection H as <-. unfold passes_fields.
  cbn [BlogItem.title BlogItem.slug BlogItem.content BlogItem.excerpt BlogItem.author
       BlogItem.tags].
  unfold get_or, get in *.
  repeat split; intros v Hv.
  - rewrite Hv in Htitle. destruct v; cbn in Htitle; congruence.
  - rewrite Hv in Hslug. destruct v; cbn in Hslug; congruence.
  - rewrite Hv in Hcontent. destruct v; cbn in Hcontent; congruence.
  - rewrite Hv in Hexcerpt. destruct v; cbn in Hexcerpt; try discriminate;
      injection Hexcerpt as <-; reflexivity.
  - rewrite Hv in Hauthor. destruct v; cbn in Hauthor; try discriminate;
      injection Hauthor as <-; reflexivity.
  - rewrite Hv in Htags. destruct v; cbn in Htags; try discriminate;
      injection Htags as <-; reflexivity.
Qed.

Lemma normalize_all_passes (posts : list Doc) (items : list BlogItem.t) :
  normalize_all posts = Ok items -> Forall2 passes_fields posts items.
Proof.
  revert items. induction posts as [|p ps IH]; intros items; cbn [normalize_all].
  - intros [= <-]. constructor.
  - destruct (normalize p) as [b|] eqn:Hp; [|discriminate]. cbn [rbind].
    destruct (normalize_all ps) as [bs|]; [|discriminate]. cbn [rbind].
    intros [= <-]. constructor; [now apply normalize_passes | now apply IH].
Qed.

Lemma next_oid_insert_all (name : string) (docs : list Doc) (d : Database) :
  next_oid (insert_all name docs d) = (next_oid d + N.of_nat (length docs))%N.
Proof.
  revert d. induction docs as [|doc docs IH]; intros d.
  - cbn. lia.
  - cbn [insert_all fold_left]. fold (insert_all name docs (fst (insert_one d name doc))).
    rewrite IH. cbn [insert_one fst next_oid length]. lia.
Qed.

(** X8. [list_blog] never returns more than 50 entries, however many posts
    the store holds. *)
Theorem list_blog_at_most_50 (w : World) (items : list BlogItem.t) :
  fst (list_blog w) = Ok items -> length items <= 50.
Proof.
  destruct w as [[d|] t]; intros Hrun.
  - destruct (collection d "blogpost") as [|p ps] eqn:Hposts.
    + rewrite (list_blog_empty {| db := Some d; trace := t |} d eq_refl Hposts) in Hrun.
      injection Hrun as <-. cbn. lia.
    + rewrite (list_blog_nonempty {| db := Some d; trace := t |} d eq_refl) in Hrun
        by (rewrite Hposts; discriminate).
      cbn [fst] in Hrun. apply normalize_all_length in Hrun.
      rewrite Hrun, length_take. lia.
  - revert Hrun. unfold list_blog. run_route. discriminate.
Qed.

Lemma list_blog_at_most_50_witness : length (replicate 50 bare_item) <= 50.
Proof. apply (list_blog_at_most_50 world_many). vm_compute. reflexivity. Defined.

(** X9. On an initialized store [list_blog] writes exactly when the
    [blogpost] collection is empty: with a post in it, the store after the
    call is the store before it, even when the call fails; with none, it is
    not. *)
Theorem list_blog_writes_iff_empty (w : World) (d : Database) :
  db w = Some d ->
  (db (snd (list_blog w)) = db w <-> collection d "blogpost" <> []).
Proof.
  intros Hdb. split.
  - intros Hsame Hempty.
    rewrite (list_blog_empty w d Hdb Hempty), Hdb in Hsame. cbn [snd db] in Hsame.
    assert (next_oid (insert_all "blogpost" demos d) = next_oid d) as Hoid by congruence.
    rewrite next_oid_insert_all in Hoid. cbn [demos length] in Hoid. lia.
  - intros Hne. rewrite (list_blog_nonempty w d Hdb Hne). now rewrite Hdb.
Qed.

Lemma list_blog_writes_iff_empty_witness :
  (db (snd (list_blog world_odd)) = db world_odd <-> collection db_odd "blogpost" <> [])
  /\ (db (snd (list_blog world0)) = db world0 <-> collection empty_db "blogpost" <> []).
Proof.
  split.
  - apply (list_blog_writes_iff_empty world_odd db_odd). reflexivity.
  - apply (list_blog_writes_iff_empty world0 empty_db). reflexivity.
Defined.

(** X10. [list_blog] fails in two ways only: with status 500 when the store
    is not initialized, and with the validation error of [BlogItem] when one
    of the first 50 stored posts holds a field of the wrong type; a post
    of that kind makes the whole listing fail. *)
Theorem list_blog_failures (w : World) (e : Exn) :
  fst (list_blog w) = Raise e ->
  (db w = None /\ e = HTTPException 500 "Database not configured")
  \/ (exists (d : Database) (p : Doc),
        db w = Some d
        /\ In p (take 50 (collection d "blogpost"))
        /\ normalize p = Raise e
        /\ e = ValidationError "BlogItem").
Proof.
  destruct w as [[d|] t]; intros Hrun.
  - right. destruct (collection d "blogpost") as [|p ps] eqn:Hposts.
    + rewrite (list_blog_empty {| db := Some d; trace := t |} d eq_refl Hposts) in Hrun.
      discriminate.
    + rewrite (list_blog_nonempty {| db := Some d; trace := t |} d eq_refl) in Hrun
        by (rewrite Hposts; discriminate).
      cbn [fst] in Hrun. apply normalize_all_error in Hrun as (q & Hq & Hn).
      exists d, q. repeat split; [exact Hq | exact Hn |].
      exact (normalize_error q e Hn).
  - left. revert Hrun. unfold list_blog. run_route. cbn [fst]. intros [= <-]. now split.
Qed.

Lemma list_blog_failures_witness :
  (db world_odd = None /\ ValidationError "BlogItem" = HTTPException 500 "Database not configured")
  \/ (exists (d : Database) (p : Doc),
        db world_odd = Some d
        /\ In p (take 50 (collection d "blogpost"))
        /\ normalize p = Raise (ValidationError "BlogItem")
        /\ ValidationError "BlogItem" = ValidationError "BlogItem").
Proof. apply (list_blog_failures world_odd). reflexivity. Defined.

(** X11. [list_blog] hands stored fields on unchanged: in each entry it
    returns, a title, slug or content the document has is the entry's, and
    an excerpt, author or tags field the document has is the entry's, or
    [None] when the document holds [None] there. *)
Theorem list_blog_passes_fields (w w' : World) (items : list BlogItem.t) :
  list_blog w = (Ok items, w') ->
  exists d' : Database,
    db w' = Some d'
    /\ Forall2 passes_fields (take 50 (collection d' "blogpost")) items.
Proof.
  intros Hrun. destruct w as [[d|] t].
  - destruct (collection d "blogpost") as [|p ps] eqn:Hposts.
    + rewrite (list_blog_empty {| db := Some d; trace := t |} d eq_refl Hposts) in Hrun.
      injection Hrun as <- <-.
      exists (insert_all "blogpost" demos d). split; [reflexivity|].
      apply normalize_all_passes.
      rewrite collection_insert_all, Hposts. apply normalize_stamped_demos.
    + rewrite (list_blog_nonempty {| db := Some d; trace := t |} d eq_refl) in Hrun
        by (rewrite Hposts; discriminate).
      injection Hrun as Hitems <-. exists d. split; [reflexivity|].
      now apply normalize_all_passes.
  - unfold list_blog in Hrun. revert Hrun. run_route. discriminate.
Qed.

Lemma list_blog_passes_fields_witness :
  exists d' : Database,
    db (snd (list_blog world0)) = Some d'
    /\ Forall2 passes_fields (take 50 (collection d' "blogpost")) demo_items.
Proof. apply (list_blog_passes_fields world0 _ demo_items). reflexivity. Defined.

(** ** Further properties of the contact intake *)

(** X12. [create_contact] does not deduplicate: two calls in a row with the
    same payload both succeed and leave two documents at the end of the
    [contactmessage] collection, alike but for their identities, which
    differ. *)
Theorem create_contact_twice (payload : ContactRequest.t) (w : World) (d : Database) :
  db w = Some d ->
  exists (r1 r2 : Doc) (w1 w2 : World) (d2 : Database),
    create_contact payload w = (Ok r1, w1)
    /\ create_contact payload w1 = (Ok r2, w2)
    /\ db w2 = Some d2
    /\ collection d2 "contactmessage"
       = (collection d "contactmessage"
          ++ [ <["_id" := VObjectId (next_oid d)]> (ContactRequest.model_dump payload);
               <["_id" := VObjectId (N.succ (next_oid d))]> (ContactRequest.model_dump payload) ])%list
    /\ <["_id" := VObjectId (next_oid d)]> (ContactRequest.model_dump payload)
       <> <["_id" := VObjectId (N.succ (next_oid d))]> (ContactRequest.model_dump payload).
Proof.
  destruct w as [o t]. cbn [db]. intros ->.
  set (dump := ContactRequest.model_dump payload).
  eexists _, _, _, _,
    (fst (insert_one (fst (insert_one d "contactmessage" dump)) "contactmessage" dump)).
  split; [reflexivity|]. split; [reflexivity|].
  split; [reflexivity|]. split.
  - rewrite !collection_insert_one. cbn [insert_one fst next_oid].
    now rewrite <- app_assoc.
  - intros Heq. apply (f_equal (fun m : Doc => m !! "_id")) in Heq.
    rewrite !lookup_insert_eq in Heq. injection Heq as Heq. lia.
Qed.

Lemma create_contact_twice_witness :
  exists (r1 r2 : Doc) (w1 w2 : World) (d2 : Database),
    create_contact hello world0 = (Ok r1, w1)
    /\ create_contact hello w1 = (Ok r2, w2)
    /\ db w2 = Some d2
    /\ collection d2 "contactmessage"
       = (collection empty_db "contactmessage"
          ++ [ <["_id" := VObjectId (next_oid empty_db)]> (ContactRequest.model_dump hello);
               <["_id" := VObjectId (N.succ (next_oid empty_db))]> (ContactRequest.model_dump hello) ])%list
    /\ <["_id" := VObjectId (next_oid empty_db)]> (ContactRequest.model_dump hello)
       <> <["_id" := VObjectId (N.succ (next_oid empty_db))]> (ContactRequest.model_dump hello).
Proof. apply (create_contact_twice hello world0 empty_db). reflexivity. Defined.

(** ** The diagnostic route *)

Lemma length_str_take (n : nat) (s : string) : String.length (str_take n s) <= n.
Proof.
  revert s. induction n as [|n IH]; intros [|c s]; cbn; try lia.
  specialize (IH s). lia.
Qed.

(** X13. [test_database] always answers and leaves the state alone: the
    report has the same six fields whatever the store and the environment
    are, [backend] is "✅ Running", [collections] lists at most ten names,
    the first ten the driver listed, and the placeholder "❌ Not Available"
    the report starts from is never what [database] ends up as. *)
Theorem test_database_report
    (getenv_DATABASE_URL : option string) (db_name : Database -> string)
    (list_collection_names : Database -> Listing) (w : World) :
  exists (report : Doc) (names : list string),
    test_database getenv_DATABASE_URL db_name list_collection_names w = (Ok report, w)
    /\ dom report
       = list_to_set ["backend"; "database"; "database_url"; "database_name";
                      "connection_status"; "collections"]
    /\ report !! "backend" = Some (VStr "✅ Running")
    /\ report !! "collections" = Some (VList names)
    /\ length names <= 10
    /\ (forall (d : Database) (listed : list string),
          db w = Some d -> list_collection_names d = Listed listed ->
          names = take 10 listed)
    /\ report !! "database" <> Some (VStr "❌ Not Available").
Proof.
  destruct w as [[d|] t]; unfold test_database; run_route.
  - destruct (list_collection_names d) as [listed|message] eqn:Hlist.
    + eexists _, (take 10 listed). split; [reflexivity|].
      split; [reflexivity|]. split; [reflexivity|]. split; [reflexivity|].
      split; [rewrite length_take; lia|]. split.
      * intros d0 listed0 [= <-]. rewrite Hlist. now intros [= <-].
      * discriminate.
    + eexists _, []. split; [reflexivity|].
      split; [reflexivity|]. split; [reflexivity|]. split; [reflexivity|].
      split; [cbn; lia|]. split.
      * intros d0 listed0 [= <-]. rewrite Hlist. discriminate.
      * rewrite lookup_insert_eq. discriminate.
  - eexists _, []. split; [reflexivity|].
    split; [reflexivity|]. split; [reflexivity|]. split; [reflexivity|].
    split; [cbn; lia|]. split; [discriminate|discriminate].
Qed.

(** X14. A failing listing is reported, not raised: with the store
    initialized and [db.list_collection_names()] raising, [test_database]
    returns a report whose [database] field is "⚠️ Connected but Error: "
    followed by the first 50 characters of the exception's text, whose
    [connection_status] is "Connected" and whose [collections] is empty. *)
Theorem test_database_listing_failure
    (getenv_DATABASE_URL : option string) (db_name : Database -> string)
    (list_collection_names : Database -> Listing)
    (w : World) (d : Database) (message : string) :
  db w = Some d ->
  list_collection_names d = ListingFailed message ->
  exists (report : Doc) (shown : string),
    test_database getenv_DATABASE_URL db_name list_collection_names w = (Ok report, w)
    /\ report !! "database" = Some (VStr ("⚠️ Connected but Error: " +:+ shown))
    /\ shown = str_take 50 message
    /\ String.length shown <= 50
    /\ report !! "connection_status" = Some (VStr "Connected")
    /\ report !! "database_name" = Some (VStr (db_name d))
    /\ report !! "collections" = Some (VList []).
Proof.
  destruct w as [o t]. cbn [db]. intros -> Hlist.
  unfold test_database. run_route. rewrite Hlist.
  eexists _, (str_take 50 message). split; [reflexivity|].
  split; [now rewrite lookup_insert_eq|]. split; [reflexivity|].
  split; [apply length_str_take|]. repeat split.
Qed.

Lemma test_database_listing_failure_witness :
  exists (report : Doc) (shown : string),
    test_database (Some "mongodb://localhost:27017") name_of_db listing_down world0
      = (Ok report, world0)
    /\ report !! "database" = Some (VStr ("⚠️ Connected but Error: " +:+ shown))
    /\ shown = str_take 50
         "localhost:27017: [Errno 111] Connection refused, Timeout: 30s, Topology Description"
    /\ String.length shown <= 50
    /\ report !! "connection_status" = Some (VStr "Connected")
    /\ report !! "database_name" = Some (VStr (name_of_db empty_db))
    /\ report !! "collections" = Some (VList []).
Proof.
  apply (test_database_listing_failure (Some "mongodb://localhost:27017") name_of_db
           listing_down world0 empty_db); reflexivity.
Defined.

(** ** Further edges of the account routes *)

(** X15. A verified password is not enough when the account document has
    no [name]: [login] then fails with the validation error of
    [AuthResponse], not with "Invalid email or password", and the store is
    as before. *)
Theorem login_without_name_fails
    (bcrypt_raw : string -> string -> N) (payload : LoginRequest.t)
    (w : World) (d : Database) (u : Doc) :
  db w = Some d ->
  find_one d "user" (email_filter (lower (LoginRequest.email payload))) = Some u ->
  pwd_context_verify bcrypt_raw (LoginRequest.password payload)
    (get_or u "password_hash" (VStr "")) = Ok true ->
  u !! "name" = None ->
  fst (login bcrypt_raw payload w) = Raise (ValidationError "AuthResponse")
  /\ db (snd (login bcrypt_raw payload w)) = db w.
Proof.
  intros Hdb Hf Hok Hname.
  rewrite (login_known bcrypt_raw payload w d u Hdb Hf), Hok.
  cbn [login_outcome fst snd db]. unfold get. rewrite Hname. cbn. now rewrite Hdb.
Qed.

Lemma login_without_name_fails_witness :
  fst (login demo_raw eve_login world_nameless) = Raise (ValidationError "AuthResponse")
  /\ db (snd (login demo_raw eve_login world_nameless)) = db world_nameless.
Proof.
  apply (login_without_name_fails demo_raw eve_login world_nameless db_nameless
           (dict [ ("_id", VObjectId 1); ("email", VStr "eve@example.com");
                   ("password_hash", VStr (bcrypt_hash demo_raw 7 "s3cret!")) ]));
    reflexivity.
Defined.
